(** * Normalisation and cache merge of [tools/api_tools.py]

    A shallow embedding of the record normaliser and of the
    load-merge-persist cycle of [process_results] and [get_item_details],
    together with the properties of the specification that concern them.

    Conventions of the model:
    - a parsed JSON document is a value of [json]; JSON numbers are the
      integers (Python [int]); Python [float] values are outside the model;
    - a Python [str] is a [string]; [str.lower] is modelled on the ASCII
      letters only;
    - Python exceptions are values of [exn], raised through [result];
    - a file holds text; its content is represented by what [json.load]
      makes of it: a parsed value, or a decoding failure;
    - [process_results] and [get_item_details] are given twice: first on
      bucket files that are absent or hold such text, in directories that
      exist, where [os.makedirs] and [open] cannot fail; then, in [Disk],
      on a file system in which [os.makedirs] and the write can fail and a
      file can make [json.load] or [open] raise any exception; the second
      agrees with the first where the first applies
      ([disk_process_results_plain], [disk_get_item_details_plain]);
    - a [dict] is the list of its items in insertion order; the keys of a
      [dict] are pairwise different, which the statements about a loaded
      mapping assume of it;
    - the HTTP request is not modelled: the parsed response body is an
      argument of the function that issues the request. *)

From stdpp Require Import base option list strings pretty gmap.
From Stdlib Require Import ZArith Ascii.

Local Open Scope string_scope.
Local Open Scope Z_scope.
Local Open Scope list_scope.
Local Set Warnings "-register-all,-clear-no-such-hyp".

(** ** JSON values as [json.load] and [requests.Response.json] build them *)

Inductive json : Type :=
| JNull
| JBool (b : bool)
| JNum (n : Z)
| JStr (s : string)
| JList (l : list json)
| JObj (kvs : list (string * json)).

(** ** Exceptions and the error monad *)

Inductive exn : Type :=
| KeyError
| TypeError
| IndexError
| AttributeError
| FileNotFoundError
| JSONDecodeError
| UnicodeDecodeError
| RecursionError
| ValueError
| IsADirectoryError
| NotADirectoryError
| FileExistsError
| PermissionError.

Inductive result (A : Type) : Type :=
| Ok (a : A)
| Raise (e : exn).
Arguments Ok {A} a.
Arguments Raise {A} e.

#[global] Instance result_ret : MRet result := fun A a => Ok a.
#[global] Instance result_bind : MBind result := fun A B f m =>
  match m with
  | Ok a => f a
  | Raise e => Raise e
  end.

Definition is_ok {A} (r : result A) : bool :=
  match r with Ok _ => true | Raise _ => false end.

(** ** The Python primitives the source relies on *)

Module Py.

(** [d.get(k)] on a [dict] with [str] keys, as an association list in
    insertion order; the first binding of a key is the live one. *)
Fixpoint dict_get (k : string) (kvs : list (string * json)) : option json :=
  match kvs with
  | [] => None
  | (k', v) :: rest => if String.eqb k k' then Some v else dict_get k rest
  end.

(** [item.get(k, default)] *)
Definition get (kvs : list (string * json)) (k : string) (default : json) : json :=
  match dict_get k kvs with
  | Some v => v
  | None => default
  end.

(** [item.get(k)], whose default is [None] *)
Definition get_none (kvs : list (string * json)) (k : string) : json :=
  get kvs k JNull.

(** Truth value of an object, as [or] tests it. *)
Definition truthy (v : json) : bool :=
  match v with
  | JNull => false
  | JBool b => b
  | JNum n => negb (n =? 0)
  | JStr s => negb (String.eqb s "")
  | JList l => match l with [] => false | _ => true end
  | JObj kvs => match kvs with [] => false | _ => true end
  end.

(** [a or b] *)
Definition or_ (a b : json) : json := if truthy a then a else b.

(** [len(v)] *)
Definition len (v : json) : result nat :=
  match v with
  | JStr s => Ok (String.length s)
  | JList l => Ok (List.length l)
  | JObj kvs => Ok (List.length kvs)
  | JNull | JBool _ | JNum _ => Raise TypeError
  end.

(** [v[0]]: the keys of a parsed JSON object are strings, so [0] is never
    among them. *)
Definition index0 (v : json) : result json :=
  match v with
  | JList [] => Raise IndexError
  | JList (x :: _) => Ok x
  | JStr EmptyString => Raise IndexError
  | JStr (String c _) => Ok (JStr (String c EmptyString))
  | JObj _ => Raise KeyError
  | JNull | JBool _ | JNum _ => Raise TypeError
  end.

Fixpoint chars (s : string) : list json :=
  match s with
  | EmptyString => []
  | String c rest => JStr (String c EmptyString) :: chars rest
  end.

(** The elements [for x in v] runs over. *)
Definition iter (v : json) : result (list json) :=
  match v with
  | JStr s => Ok (chars s)
  | JList l => Ok l
  | JObj kvs => Ok (map (fun kv => JStr (fst kv)) kvs)
  | JNull | JBool _ | JNum _ => Raise TypeError
  end.

(** [v[k]] for a [str] key [k] *)
Definition subscript (v : json) (k : string) : result json :=
  match v with
  | JObj kvs =>
      match dict_get k kvs with
      | Some x => Ok x
      | None => Raise KeyError
      end
  | _ => Raise TypeError
  end.

End Py.

(** ** The record normaliser

    The dictionary display of [process_results] (lines 148-157) and of
    [get_item_details] (lines 58-68); the two differ in the ["date"] entry
    only.  The entries are evaluated in the order they are written. *)

(** [[contributor for contributor in
      item.get('contributors',"") or item.get("contributor","")]] *)
Definition contributors_of (item : list (string * json)) : result (list json) :=
  Py.iter (Py.or_ (Py.get item "contributors" (JStr ""))
                  (Py.get item "contributor" (JStr ""))).

(** [item.get("image_url", ["None"])[0] if 0 < len(item.get("image_url"))
      else item.get("image_url", ["None"])] *)
Definition thumbnail_of (item : list (string * json)) : result json :=
  n ← Py.len (Py.get_none item "image_url");
  if (0 <? n)%nat
  then Py.index0 (Py.get item "image_url" (JList [JStr "None"]))
  else Ok (Py.get item "image_url" (JList [JStr "None"])).

(** The dictionary display, once the two entries that can raise have
    been evaluated. *)
Definition item_info_of (include_date : bool) (item : list (string * json))
    (contributors : list json) (thumbnail : json) : json :=
  JObj ([("title", Py.get item "title" (JStr ""));
         ("contributor[s]", JList contributors);
         ("description", Py.get item "description" (JStr ""))]
        ++ (if include_date then [("date", Py.get item "date" (JStr ""))] else [])
        ++ [("link", Py.get item "id" (JStr ""));
            ("thumbnail", thumbnail);
            ("digitized", Py.get item "digitized" (JBool false));
            ("genre", Py.get_none item "genre");
            ("subjects", Py.get_none item "subject")]).

Definition normalize_fields (include_date : bool) (item : list (string * json))
  : result json :=
  contributors ← contributors_of item;
  thumbnail ← thumbnail_of item;
  Ok (item_info_of include_date item contributors thumbnail).

(** [item.get] exists on a [dict] only. *)
Definition normalize (include_date : bool) (item : json) : result json :=
  match item with
  | JObj fields => normalize_fields include_date fields
  | _ => Raise AttributeError
  end.

(** A field of a normalised record. *)
Definition field (k : string) (rec : json) : option json :=
  match rec with
  | JObj kvs => Py.dict_get k kvs
  | _ => None
  end.

(** ** Strings: the methods of [str] and of [os.path] that build a bucket's path *)

Module Str.

Definition lower_char (c : ascii) : ascii :=
  let n := N_of_ascii c in
  if ((65 <=? n) && (n <=? 90))%N then ascii_of_N (n + 32) else c.

(** [s.lower()] *)
Fixpoint lower (s : string) : string :=
  match s with
  | EmptyString => EmptyString
  | String c rest => String (lower_char c) (lower rest)
  end.

(** [s.replace(" ", "_")] *)
Fixpoint replace_space (s : string) : string :=
  match s with
  | EmptyString => EmptyString
  | String c rest =>
      String (if Ascii.eqb c " " then "_"%char else c) (replace_space rest)
  end.

(** [pat in s] *)
Fixpoint contains (pat s : string) : bool :=
  String.prefix pat s
  || match s with
     | EmptyString => false
     | String _ rest => contains pat rest
     end.

Fixpoint lstrip (c : ascii) (s : string) : string :=
  match s with
  | EmptyString => EmptyString
  | String c' rest => if Ascii.eqb c' c then lstrip c rest else s
  end.

Fixpoint rstrip (c : ascii) (s : string) : string :=
  match s with
  | EmptyString => EmptyString
  | String c' rest =>
      let rest' := rstrip c rest in
      if Ascii.eqb c' c && String.eqb rest' "" then EmptyString
      else String c' rest'
  end.

(** [s.strip(c)] for a one-character [c] *)
Definition strip (c : ascii) (s : string) : string := rstrip c (lstrip c s).

(** [s.split(c)] for a one-character [c]; the result is never empty. *)
Fixpoint split (c : ascii) (s : string) : list string :=
  match s with
  | EmptyString => [EmptyString]
  | String c' rest =>
      if Ascii.eqb c' c then EmptyString :: split c rest
      else match split c rest with
           | seg :: segs => String c' seg :: segs
           | [] => [String c' EmptyString]
           end
  end.

Definition starts_with (c : ascii) (s : string) : bool :=
  match s with
  | String c' _ => Ascii.eqb c' c
  | EmptyString => false
  end.

Fixpoint ends_with (c : ascii) (s : string) : bool :=
  match s with
  | EmptyString => false
  | String c' EmptyString => Ascii.eqb c' c
  | String _ rest => ends_with c rest
  end.

(** [os.path.join(a, b)] on POSIX *)
Definition path_join (a b : string) : string :=
  if starts_with "/" b then b
  else if String.eqb a "" || ends_with "/" a then String.append a b
  else String.append a (String.append "/" b).

End Str.

(** ** Dictionaries in memory

    A Python [dict] keeps its keys in insertion order.  Assigning to a key
    that is already present replaces the value in place and keeps the key
    object that was there; assigning to a new key appends it. *)

Section Dict.
Context {K V : Type} (eqb : K -> K -> bool).

Fixpoint dict_set (k : K) (v : V) (d : list (K * V)) : list (K * V) :=
  match d with
  | [] => [(k, v)]
  | (k', v') :: rest =>
      if eqb k' k then (k', v) :: rest else (k', v') :: dict_set k v rest
  end.

Fixpoint dict_lookup (k : K) (d : list (K * V)) : option V :=
  match d with
  | [] => None
  | (k', v') :: rest => if eqb k' k then Some v' else dict_lookup k rest
  end.

(** [d.update(kvs)]: the assignments [d[k] = v], in sequence. *)
Definition dict_update (kvs : list (K * V)) (d : list (K * V)) : list (K * V) :=
  fold_left (fun d kv => dict_set (fst kv) (snd kv) d) kvs d.

(** The [dict] built from a sequence of pairs, as the JSON decoder builds
    an object: a repeated key keeps its first position and its last value. *)
Definition dict_of_pairs (kvs : list (K * V)) : list (K * V) :=
  dict_update kvs [].
End Dict.

(** The hashable values that can come out of a JSON document. *)
Inductive pykey : Type :=
| KStr (s : string)
| KInt (n : Z)
| KBool (b : bool)
| KNone.

(** [hash(v)], needed to use [v] as a key: lists and dicts are unhashable. *)
Definition py_hash (v : json) : result pykey :=
  match v with
  | JStr s => Ok (KStr s)
  | JNum n => Ok (KInt n)
  | JBool b => Ok (KBool b)
  | JNull => Ok KNone
  | JList _ | JObj _ => Raise TypeError
  end.

(** Keys are compared with [==]: [True == 1] and [False == 0]. *)
Definition key_class (k : pykey) : option (string + Z) :=
  match k with
  | KStr s => Some (inl s)
  | KInt n => Some (inr n)
  | KBool b => Some (inr (if b then 1 else 0))
  | KNone => None
  end.

Definition pykey_eqb (a b : pykey) : bool :=
  bool_decide (key_class a = key_class b).

(** The name [json.dump] writes for a key. *)
Definition key_str (k : pykey) : string :=
  match k with
  | KStr s => s
  | KInt n => pretty n
  | KBool true => "true"
  | KBool false => "false"
  | KNone => "null"
  end.

(** The object bound to [items_info]: what [json.load] returned, or [{}]. *)
Inductive pyobj : Type :=
| PDict (d : list (pykey * json))
| PList (l : list json)
| PAtom (v : json).

Definition of_json (v : json) : pyobj :=
  match v with
  | JObj kvs => PDict (map (fun kv => (KStr (fst kv), snd kv)) kvs)
  | JList l => PList l
  | _ => PAtom v
  end.

(** The integer a subscript of a list stands for. *)
Definition list_index (key : json) : option Z :=
  match key with
  | JNum n => Some n
  | JBool b => Some (if b then 1 else 0)
  | _ => None
  end.

(** [obj[key] = v] *)
Definition py_setitem (obj : pyobj) (key : json) (v : json) : result pyobj :=
  match obj with
  | PDict d =>
      k ← py_hash key;
      Ok (PDict (dict_set pykey_eqb k v d))
  | PList l =>
      match list_index key with
      | None => Raise TypeError
      | Some i =>
          let n := Z.of_nat (List.length l) in
          if (0 <=? i) && (i <? n) then Ok (PList (<[Z.to_nat i := v]> l))
          else if (- n <=? i) && (i <? 0) then Ok (PList (<[Z.to_nat (n + i) := v]> l))
          else Raise IndexError
      end
  | PAtom _ => Raise TypeError
  end.

(** ** Files

    [json.dump] followed by [json.load]: keys are written under their
    names, and the decoder builds the object from the pairs it reads. *)
Definition json_dump (obj : pyobj) : json :=
  match obj with
  | PDict d =>
      JObj (dict_of_pairs String.eqb (map (fun kv => (key_str (fst kv), snd kv)) d))
  | PList l => JList l
  | PAtom v => v
  end.

(** The content of a file of text, seen through [json.load]: text it
    parses, or text it rejects with [json.JSONDecodeError].  The files on
    which [json.load] or [open] raise another exception are those of
    [Disk.node]. *)
Inductive content : Type :=
| Corrupt (text : string)   (* [json.JSONDecodeError] *)
| Valid (v : json).

(** [with open(file_path, "r") as json_file: json.load(json_file)] on
    such a file; an absent file is [None]. *)
Definition json_load (file : option content) : result pyobj :=
  match file with
  | None => Raise FileNotFoundError
  | Some (Corrupt _) => Raise JSONDecodeError
  | Some (Valid v) => Ok (of_json v)
  end.

(** The [try] ... [except (FileNotFoundError, json.JSONDecodeError)] block
    around it. *)
Definition load_or_empty (file : option content) : result pyobj :=
  match json_load file with
  | Ok obj => Ok obj
  | Raise FileNotFoundError | Raise JSONDecodeError => Ok (PDict [])
  | Raise e => Raise e
  end.

(** ** [process_results] *)

(** The body of [for item in results], on the pair of [item_ids] and
    [items_info]. *)
Definition loop_body (st : list json * pyobj) (item : json)
  : result (list json * pyobj) :=
  id ← Py.subscript item "id";
  let item_ids := st.1 ++ [id] in
  item_info ← normalize false item;
  items_info ← py_setitem st.2 id item_info;
  Ok (item_ids, items_info).

Fixpoint for_each (items : list json) (st : list json * pyobj)
  : result (list json * pyobj) :=
  match items with
  | [] => Ok st
  | item :: rest => st' ← loop_body st item; for_each rest st'
  end.

Definition query_file (query : string) : string :=
  let path := Str.path_join "queries" (Str.replace_space (Str.lower query)) in
  Str.path_join path "items_info.json".

(** The file system maps a path to the content of the file of text
    there, in a directory that exists and can be written: there
    [os.makedirs(path, exist_ok=True)] does nothing.  The function returns
    its value, or the exception it raised, and the file system it leaves.
    [Disk.process_results] is the function where [os.makedirs], [open] and
    the write can fail. *)
Definition process_results (query : string) (results : json)
    (fs : gmap string content)
  : result (list json * pyobj) * gmap string content :=
  let file_path := query_file query in
  match
    items_info ← load_or_empty (fs !! file_path);
    items ← Py.iter results;
    for_each items ([], items_info)
  with
  | Ok (item_ids, items_info) =>
      (Ok (item_ids, items_info),
       <[file_path := Valid (json_dump items_info)]> fs)
  | Raise e => (Raise e, fs)
  end.

(** ** [get_item_details] *)

Definition item_key (item_id : string) : string :=
  if negb (Str.contains "http" item_id) then item_id
  else List.last (Str.split "/" (Str.strip "/" item_id)) "".

Definition item_file (item_id : string) : string :=
  let path := Str.path_join "items" (Str.replace_space (Str.lower item_id)) in
  Str.path_join path "item_info.json".

(** [response] is the parsed body of the request for the item; the file
    system is as for [process_results], and [Disk.get_item_details] is
    the function where [os.makedirs], [open] and the write can fail. *)
Definition get_item_details (item_id : string) (response : json)
    (fs : gmap string content)
  : result (string * json) * gmap string content :=
  let item_id := item_key item_id in
  let file_path := item_file item_id in
  match
    item ← Py.subscript response "item";
    item_info ← load_or_empty (fs !! file_path);
    (* [item_info] is rebound: the object just loaded is dropped *)
    normalize true item
  with
  | Ok item_info =>
      (Ok (item_id, item_info),
       <[file_path := Valid (json_dump (of_json item_info))]> fs)
  | Raise e => (Raise e, fs)
  end.

(** ** [search_items] and [format_search]

    Both fetch a response, take its ["results"] and hand them to
    [process_results] with the query; [max_results], and the format of
    [format_search], go into the URL of the request only.  [response] is
    the parsed body of that request. *)

Definition search_items (query : string) (max_results : Z) (response : json)
    (fs : gmap string content)
  : result (list json * pyobj) * gmap string content :=
  match Py.subscript response "results" with
  | Ok results => process_results query results fs
  | Raise e => (Raise e, fs)
  end.

Definition format_search (query format : string) (max_results : Z)
    (response : json) (fs : gmap string content)
  : result (list json * pyobj) * gmap string content :=
  match Py.subscript response "results" with
  | Ok results => process_results query results fs
  | Raise e => (Raise e, fs)
  end.

(** The bucket name of a key: [key.lower().replace(" ","_")]. *)
Definition bucket_name (key : string) : string :=
  Str.replace_space (Str.lower key).

(** [c in s], for a character. *)
Fixpoint has_char (c : ascii) (s : string) : bool :=
  match s with
  | EmptyString => false
  | String c' rest => Ascii.eqb c' c || has_char c rest
  end.

(** ** The loop, record by record

    What one iteration contributes when [items_info] is a [dict]: the
    identifier appended to [item_ids], the key it hashes to, and the
    record stored under that key. *)

Definition entry_of (item : json) : result (json * (pykey * json)) :=
  id ← Py.subscript item "id";
  item_info ← normalize false item;
  k ← py_hash id;
  Ok (id, (k, item_info)).

Fixpoint entries_of (items : list json) : result (list (json * (pykey * json))) :=
  match items with
  | [] => Ok []
  | item :: rest =>
      e ← entry_of item;
      es ← entries_of rest;
      Ok (e :: es)
  end.

(** The load and the loop of [process_results], up to the write. *)
Definition run_loop (file : option content) (results : json)
  : result (list json * pyobj) :=
  items_info ← load_or_empty file;
  items ← Py.iter results;
  for_each items ([], items_info).

(** The identifier of a record, where it has one, is a [str]. *)
Definition id_is_str (item : json) : bool :=
  match Py.subscript item "id" with
  | Ok (JStr _) | Raise _ => true
  | Ok _ => false
  end.

Definition ids_are_str (results : json) : bool :=
  match Py.iter results with
  | Ok items => forallb id_is_str items
  | Raise _ => true
  end.

(** A [dict] has no two equal keys; so has the object [json.load] builds
    from a file. *)
Definition unique_keys (file : option content) : Prop :=
  match file with
  | Some (Valid (JObj kvs)) => NoDup (map fst kvs)
  | _ => True
  end.

(** The values [for] can run over, and those of which the thumbnail
    expression can take the length and, when it is positive, the first
    element. *)
Definition is_iterable (v : json) : bool :=
  match v with
  | JStr _ | JList _ | JObj _ => true
  | JNull | JBool _ | JNum _ => false
  end.

Definition is_indexable (v : json) : bool :=
  match v with
  | JStr _ | JList _ | JObj [] => true
  | JObj (_ :: _) | JNull | JBool _ | JNum _ => false
  end.

(** The two exceptions the [try] block catches. *)
Definition is_read_error (e : exn) : bool :=
  match e with
  | FileNotFoundError | JSONDecodeError => true
  | _ => false
  end.

(** The bucket file is absent, or its text does not parse. *)
Definition unreadable (file : option content) : Prop :=
  file = None \/ exists text, file = Some (Corrupt text).

(** Every key of the dictionary is a [str]. *)
Definition str_keys (d : list (pykey * json)) : Prop :=
  forall e, e ∈ d -> exists s, fst e = KStr s.

(** A batch whose two records have the identifiers [5] and ["5"]. *)
Definition mixed_batch : json :=
  JList [JObj [("id", JNum 5); ("image_url", JList [JStr "u"])];
         JObj [("id", JStr "5"); ("image_url", JList [JStr "v"])]].

(** A batch of one record, and a bucket that already holds another. *)
Definition sample_record : json :=
  JObj [("id", JStr "http://www.loc.gov/item/1/");
        ("title", JStr "Map");
        ("image_url", JList [JStr "http://t/1.jpg"])].

Definition sample_batch : json := JList [sample_record].

Definition sample_mapping : list (string * json) :=
  [("http://www.loc.gov/item/0/", JObj [("title", JStr "Atlas")]);
   ("http://www.loc.gov/item/2/", JObj [("title", JStr "Chart")])].

Definition sample_fs : gmap string content :=
  {[ query_file "civil war" := Valid (JObj sample_mapping) ]}.

(** A bucket that holds an earlier version of the record of the batch. *)
Definition stale_fs : gmap string content :=
  {[ query_file "civil war" :=
       Valid (JObj [("http://www.loc.gov/item/1/",
                     JObj [("title", JStr "Old title");
                           ("description", JStr "Old description")])]) ]}.

(** The mapping a bucket file holds, when it holds one. *)
Definition mapping_at (path : string) (fs : gmap string content)
  : option (list (string * json)) :=
  match fs !! path with
  | Some (Valid (JObj kvs)) => Some kvs
  | _ => None
  end.

(** ** The two operations on a file system that can fail

    The state of the disk as the two functions meet it: what each path
    holds, the directories known to exist, the directories
    [os.makedirs(path, exist_ok=True)] cannot make, each with the
    exception it raises there ([FileExistsError] when the path is a file,
    [NotADirectoryError] when a file lies above it, [PermissionError]),
    and the paths that cannot be written, each with the exception raised
    there and what the path holds afterwards when the failure comes after
    the file was opened and emptied.  The properties below speak of the
    one file a call reads and writes, and name it by the path the call
    builds. *)

Module Disk.

Inductive node : Type :=
| Text (c : content)
    (* a file of text: [json.load] parses it or raises [JSONDecodeError] *)
| Unloadable (e : exn)
    (* a file that opens, on which [json.load] raises [e]:
       [UnicodeDecodeError] on bytes that are no text, [RecursionError] on
       text nested too deep, [ValueError] on an overlong number *)
| Unopenable (e : exn).
    (* [open(file_path, "r")] raises [e]: [IsADirectoryError] on a
       directory, [PermissionError] *)

Record state : Type := State {
  files : gmap string node;
  dirs : gset string;
  makedirs_error : gmap string exn;
  write_error : gmap string (exn * option node)
}.

(** [os.makedirs(path, exist_ok=True)] *)
Definition makedirs (path : string) (st : state) : result state :=
  match makedirs_error st !! path with
  | Some e => Raise e
  | None =>
      Ok (State (files st) ({[ path ]} ∪ dirs st) (makedirs_error st)
                (write_error st))
  end.

(** [with open(file_path, "r") as json_file: json.load(json_file)] *)
Definition json_load (file : option node) : result pyobj :=
  match file with
  | None => Raise FileNotFoundError
  | Some (Text c) => json_load (Some c)
  | Some (Unloadable e) => Raise e
  | Some (Unopenable e) => Raise e
  end.

(** The [try] ... [except (FileNotFoundError, json.JSONDecodeError)] block:
    any other exception passes through. *)
Definition load_or_empty (file : option node) : result pyobj :=
  match json_load file with
  | Ok obj => Ok obj
  | Raise e => if is_read_error e then Ok (PDict []) else Raise e
  end.

(** [with open(file_path, "w") as json_file: json.dump(obj, json_file, indent=2)]:
    the state reached, and the exception raised on the way if any. *)
Definition write (path : string) (obj : pyobj) (st : state)
  : option exn * state :=
  match write_error st !! path with
  | Some (e, None) => (Some e, st)
  | Some (e, Some rest) =>
      (Some e,
       State (<[path := rest]> (files st)) (dirs st) (makedirs_error st)
             (write_error st))
  | None =>
      (None,
       State (<[path := Text (Valid (json_dump obj))]> (files st))
             (dirs st) (makedirs_error st) (write_error st))
  end.

Definition query_dir (query : string) : string :=
  Str.path_join "queries" (Str.replace_space (Str.lower query)).

Definition item_dir (item_id : string) : string :=
  Str.path_join "items" (Str.replace_space (Str.lower item_id)).

(** [process_results]: the directory is made before the file is loaded,
    and the file is written after the loop has gone through. *)
Definition process_results (query : string) (results : json) (st : state)
  : result (list json * pyobj) * state :=
  let path := query_dir query in
  match makedirs path st with
  | Raise e => (Raise e, st)
  | Ok st =>
      let file_path := Str.path_join path "items_info.json" in
      match
        items_info ← load_or_empty (files st !! file_path);
        items ← Py.iter results;
        for_each items ([], items_info)
      with
      | Raise e => (Raise e, st)
      | Ok (item_ids, items_info) =>
          match write file_path items_info st with
          | (Some e, st) => (Raise e, st)
          | (None, st) => (Ok (item_ids, items_info), st)
          end
      end
  end.

(** [get_item_details]: [response['item']] comes before the directory is
    made. *)
Definition get_item_details (item_id : string) (response : json) (st : state)
  : result (string * json) * state :=
  let item_id := item_key item_id in
  match Py.subscript response "item" with
  | Raise e => (Raise e, st)
  | Ok item =>
      let path := item_dir item_id in
      match makedirs path st with
      | Raise e => (Raise e, st)
      | Ok st =>
          let file_path := Str.path_join path "item_info.json" in
          match
            item_info ← load_or_empty (files st !! file_path);
            (* [item_info] is rebound: the object just loaded is dropped *)
            normalize true item
          with
          | Raise e => (Raise e, st)
          | Ok item_info =>
              match write file_path (of_json item_info) st with
              | (Some e, st) => (Raise e, st)
              | (None, st) => (Ok (item_id, item_info), st)
              end
          end
      end
  end.

(** The bucket file is absent, or holds text [json.load] rejects with
    [JSONDecodeError]. *)
Definition unreadable (file : option node) : Prop :=
  file = None \/ exists text, file = Some (Text (Corrupt text)).

(** The bucket file is absent or holds text. *)
Definition plain (file : option node) : Prop :=
  match file with
  | None | Some (Text _) => True
  | Some (Unloadable _) | Some (Unopenable _) => False
  end.

(** The content of a file of text. *)
Definition content_of (file : option node) : option content :=
  match file with
  | Some (Text c) => Some c
  | _ => None
  end.

End Disk.

(** A bucket whose file is nested deeper than [json.load] can follow, one
    with text that does not parse, and one without file. *)
Definition deep_disk : Disk.state :=
  Disk.State {[ query_file "civil war" := Disk.Unloadable RecursionError ]}
             {[ Disk.query_dir "civil war" ]} ∅ ∅.

Definition corrupt_disk : Disk.state :=
  Disk.State {[ query_file "civil war" := Disk.Text (Corrupt "{oops") ]}
             {[ Disk.query_dir "civil war" ]} ∅ ∅.

Definition empty_disk : Disk.state := Disk.State ∅ ∅ ∅ ∅.

(** No bucket file, and a file named [queries/civil_war] where the
    bucket's directory would be. *)
Definition blocked_disk : Disk.state :=
  Disk.State ∅ ∅ {[ Disk.query_dir "civil war" := FileExistsError ]} ∅.

(** The file of item ["1"], nested too deep, and holding [{}]. *)
Definition deep_item_disk : Disk.state :=
  Disk.State {[ item_file "1" := Disk.Unloadable RecursionError ]}
             {[ Disk.item_dir "1" ]} ∅ ∅.

Definition fresh_item_disk : Disk.state :=
  Disk.State {[ item_file "1" := Disk.Text (Valid (JObj [])) ]}
             {[ Disk.item_dir "1" ]} ∅ ∅.

(** The file of item ["1"] holding bytes that are no text. *)
Definition binary_item_disk : Disk.state :=
  Disk.State {[ item_file "1" := Disk.Unloadable UnicodeDecodeError ]}
             {[ Disk.item_dir "1" ]} ∅ ∅.

(** A response with the record as its item. *)
Definition sample_response : json := JObj [("item", sample_record)].

(** A bucket that holds two records. *)
Definition sample_disk : Disk.state :=
  Disk.State {[ query_file "civil war" := Disk.Text (Valid (JObj sample_mapping)) ]}
             {[ Disk.query_dir "civil war" ]} ∅ ∅.

(** The keys of a loaded object as keys of a [dict], the names
    [json.dump] writes for the keys of a [dict], the classes of its keys,
    and the object read back from what [json.dump] wrote. *)
#[local] Abbreviation lift :=
  (map (fun kv : string * json => (KStr (fst kv), snd kv))).
#[local] Abbreviation names :=
  (map (fun kv : pykey * json => (key_str (fst kv), snd kv))).
#[local] Abbreviation classes :=
  (map (fun e : pykey * json => key_class (fst e))).
#[local] Abbreviation written d := (dict_of_pairs String.eqb (names d)).

(** * Properties *)

(** ** Paths and strings, on examples *)

Example query_file_ex :
  query_file "Civil War Maps" = "queries/civil_war_maps/items_info.json".
Proof. reflexivity. Qed.

Example query_file_empty_ex : query_file "" = "queries/items_info.json".
Proof. reflexivity. Qed.

Example item_key_url_ex : item_key "http://www.loc.gov/item/2001/" = "2001".
Proof. reflexivity. Qed.

Example item_key_plain_ex : item_key "2001 a" = "2001 a".
Proof. reflexivity. Qed.

Example item_file_ex : item_file "2001 a" = "items/2001_a/item_info.json".
Proof. reflexivity. Qed.

Example strip_split_ex :
  Str.split "/" (Str.strip "/" "/a//b/") = ["a"; ""; "b"].
Proof. reflexivity. Qed.

Example strip_all_ex : Str.split "/" (Str.strip "/" "///") = [""].
Proof. reflexivity. Qed.

(** ** The normaliser *)

Section Normaliser.
Implicit Types (item : list (string * json)) (rec : json) (b : bool).

Lemma bind_ok_inv {A B} (m : result A) (f : A -> result B) (y : B) :
  m ≫= f = Ok y -> exists x, m = Ok x /\ f x = Ok y.
Proof. destruct m as [x|e]; simpl; [eauto | discriminate]. Qed.

Lemma normalize_ok_inv b item rec :
  normalize b (JObj item) = Ok rec ->
  exists cs th,
    contributors_of item = Ok cs /\ thumbnail_of item = Ok th /\
    rec = item_info_of b item cs th.
Proof.
  simpl. unfold normalize_fields. intros H.
  apply bind_ok_inv in H as (cs & Hcs & H).
  apply bind_ok_inv in H as (th & Hth & H).
  exists cs, th. repeat split; congruence.
Qed.

Lemma field_thumbnail b item cs th :
  field "thumbnail" (item_info_of b item cs th) = Some th.
Proof. destruct b; reflexivity. Qed.

Lemma field_contributors b item cs th :
  field "contributor[s]" (item_info_of b item cs th) = Some (JList cs).
Proof. destruct b; reflexivity. Qed.

Lemma contributors_of_exn item e :
  contributors_of item = Raise e -> e = TypeError.
Proof.
  unfold contributors_of.
  destruct (Py.or_ _ _); simpl; congruence.
Qed.

Lemma thumbnail_absent item :
  Py.dict_get "image_url" item = None -> thumbnail_of item = Raise TypeError.
Proof.
  intros H. unfold thumbnail_of, Py.get_none, Py.get. now rewrite H.
Qed.

Lemma load_or_empty_ok (file : option content) :
  exists obj, load_or_empty file = Ok obj.
Proof. destruct file as [[t|v]|]; simpl; eauto. Qed.

Lemma thumbnail_empty item :
  Py.dict_get "image_url" item = Some (JList []) ->
  thumbnail_of item = Ok (JList []).
Proof.
  intros H. unfold thumbnail_of, Py.get_none, Py.get. now rewrite H.
Qed.
End Normaliser.

(** C1, as stated, fails: on the record [{"image_url": []}] both
    normalisations succeed and the thumbnail is the empty list itself, not
    the string ["None"]. *)
Lemma thumbnail_of_empty_list_is_not_None :
  (exists rec,
     normalize false (JObj [("image_url", JList [])]) = Ok rec /\
     field "thumbnail" rec = Some (JList []) /\
     field "thumbnail" rec <> Some (JStr "None")) /\
  (exists rec,
     normalize true (JObj [("image_url", JList [])]) = Ok rec /\
     field "thumbnail" rec = Some (JList []) /\
     field "thumbnail" rec <> Some (JStr "None")).
Proof.
  split; eexists; (split; [reflexivity | split; [reflexivity | discriminate]]).
Qed.

(** C1, amended: for every raw record whose ["image_url"] is the empty
    list, the thumbnail expression evaluates, without raising, to that
    empty list (the raw value); every record either normalisation yields
    has it as its thumbnail, and normalisation never raises [IndexError]. *)
Theorem thumbnail_of_empty_list (item : list (string * json)) :
  Py.dict_get "image_url" item = Some (JList []) ->
  thumbnail_of item = Ok (JList []) /\
  (forall b rec, normalize b (JObj item) = Ok rec ->
                 field "thumbnail" rec = Some (JList [])) /\
  (forall b, normalize b (JObj item) <> Raise IndexError).
Proof.
  intros H. pose proof (thumbnail_empty item H) as Hth.
  split; [exact Hth | split].
  - intros b rec Hn.
    apply normalize_ok_inv in Hn as (cs & th & _ & Hth' & ->).
    rewrite field_thumbnail. congruence.
  - intros b. simpl. unfold normalize_fields.
    destruct (contributors_of item) as [cs|e] eqn:Hcs; simpl.
    + rewrite Hth. discriminate.
    + apply contributors_of_exn in Hcs. subst e. discriminate.
Qed.

Lemma thumbnail_of_empty_list_witness :
  thumbnail_of [("id", JStr "a"); ("image_url", JList [])] = Ok (JList []).
Proof.
  exact (proj1 (thumbnail_of_empty_list
                  [("id", JStr "a"); ("image_url", JList [])] eq_refl)).
Defined.

(** Whenever ["image_url"] is absent, [len(item.get("image_url"))] is
    [len(None)]: normalisation raises [TypeError], [get_item_details]
    raises it and writes nothing, and so does [process_results] on a batch
    made of such a record. *)
Lemma normalize_raises_without_image_url (item : list (string * json)) :
  Py.dict_get "image_url" item = None ->
  (forall b, normalize b (JObj item) = Raise TypeError) /\
  (forall item_id response fs,
     Py.subscript response "item" = Ok (JObj item) ->
     get_item_details item_id response fs = (Raise TypeError, fs)) /\
  (forall query id fs,
     Py.dict_get "id" item = Some id ->
     process_results query (JList [JObj item]) fs = (Raise TypeError, fs)).
Proof.
  intros H.
  assert (Hn : forall b, normalize b (JObj item) = Raise TypeError).
  { intros b. simpl. unfold normalize_fields.
    destruct (contributors_of item) as [cs|e] eqn:Hcs; simpl.
    - now rewrite thumbnail_absent.
    - apply contributors_of_exn in Hcs. now subst e. }
  split; [exact Hn | split].
  - intros item_id response fs Hr. unfold get_item_details.
    rewrite Hr. simpl.
    destruct (load_or_empty_ok (fs !! item_file (item_key item_id)))
      as [obj ->].
    simpl. specialize (Hn true). simpl in Hn. now rewrite Hn.
  - intros query id fs Hid. unfold process_results.
    destruct (load_or_empty_ok (fs !! query_file query)) as [obj ->].
    simpl. unfold loop_body. simpl. rewrite Hid. simpl.
    specialize (Hn false). simpl in Hn. now rewrite Hn.
Qed.

(** C2, as stated, fails: a scalar where the code iterates or measures
    raises [TypeError], on records that have their ["image_url"]: a number
    for ["contributors"], or a number for ["image_url"] itself. *)
Lemma normalize_raises_on_scalars :
  normalize false (JObj [("id", JStr "a"); ("contributors", JNum 5);
                         ("image_url", JList [JStr "u"])])
    = Raise TypeError /\
  normalize true (JObj [("id", JStr "a"); ("image_url", JNum 7)])
    = Raise TypeError.
Proof. split; reflexivity. Qed.

(** C2, amended: normalisation returns, in [process_results] and in
    [get_item_details] alike, for every raw record in which ["image_url"]
    is present and is a string, a list or an empty object, and in which the
    value iterated for the contributors is a string, a list or an object.
    The other entries take the raw value of their field, whatever it is,
    or the default when the field is absent. *)
Theorem normalize_total_on_sequences b (item : list (string * json)) v :
  Py.dict_get "image_url" item = Some v ->
  is_indexable v = true ->
  is_iterable (Py.or_ (Py.get item "contributors" (JStr ""))
                      (Py.get item "contributor" (JStr ""))) = true ->
  exists rec,
    normalize b (JObj item) = Ok rec /\
    field "title" rec = Some (Py.get item "title" (JStr "")) /\
    field "description" rec = Some (Py.get item "description" (JStr "")) /\
    field "link" rec = Some (Py.get item "id" (JStr "")) /\
    field "digitized" rec = Some (Py.get item "digitized" (JBool false)) /\
    field "genre" rec = Some (Py.get item "genre" JNull) /\
    field "subjects" rec = Some (Py.get item "subject" JNull) /\
    (b = true -> field "date" rec = Some (Py.get item "date" (JStr ""))).
Proof.
  intros Him Hv Hc.
  assert (Hcs : exists cs, contributors_of item = Ok cs).
  { unfold contributors_of. destruct (Py.or_ _ _); try discriminate;
      simpl; eauto. }
  assert (Hth : exists th, thumbnail_of item = Ok th).
  { unfold thumbnail_of, Py.get_none, Py.get. rewrite Him.
    destruct v as [| | |s|l|kvs]; try discriminate; simpl.
    - destruct s; simpl; eauto.
    - destruct l; simpl; eauto.
    - destruct kvs; [simpl; eauto | discriminate]. }
  destruct Hcs as [cs Hcs], Hth as [th Hth].
  exists (item_info_of b item cs th). simpl. unfold normalize_fields.
  rewrite Hcs, Hth. simpl.
  destruct b; repeat split; discriminate.
Qed.

Lemma normalize_total_on_sequences_witness :
  exists rec,
    normalize false (JObj [("contributor", JStr "X");
                           ("genre", JNum 3);
                           ("image_url", JList [])]) = Ok rec /\
    field "title" rec = Some (JStr "") /\
    field "genre" rec = Some (JNum 3).
Proof.
  destruct (normalize_total_on_sequences false
              [("contributor", JStr "X"); ("genre", JNum 3);
               ("image_url", JList [])] (JList []) eq_refl eq_refl eq_refl)
    as (rec & Hn & Ht & _ & _ & _ & Hg & _).
  exists rec. repeat split; assumption.
Defined.

(** C3: the code does not do what the claim says.  Normalising the empty
    record raises [TypeError] instead of yielding the default record, on
    both paths; [process_results] on the batch [[{}]] raises [KeyError] at
    [item['id']] before it normalises anything, and writes nothing. *)
Theorem normalize_empty_record_raises :
  normalize false (JObj []) = Raise TypeError /\
  normalize true (JObj []) = Raise TypeError /\
  (forall query fs,
     process_results query (JList [JObj []]) fs = (Raise KeyError, fs)).
Proof.
  repeat split. intros query fs. unfold process_results.
  now destruct (load_or_empty_ok (fs !! query_file query)) as [obj ->].
Qed.

(** The contributors entry, by cases: a truthy ["contributors"] is the
    value iterated; when it is absent or falsy the singular ["contributor"]
    is iterated instead; when both are absent the entry is the empty list.
    What is iterated is the value itself: a string gives its characters. *)
Lemma contributors_fallback (item : list (string * json)) :
  (forall v, Py.dict_get "contributors" item = Some v ->
             Py.truthy v = true ->
             contributors_of item = Py.iter v) /\
  (forall v, Py.dict_get "contributors" item = Some v ->
             Py.truthy v = false ->
             contributors_of item =
               Py.iter (Py.get item "contributor" (JStr ""))) /\
  (Py.dict_get "contributors" item = None ->
   contributors_of item = Py.iter (Py.get item "contributor" (JStr ""))) /\
  (Py.dict_get "contributors" item = None ->
   Py.dict_get "contributor" item = None ->
   contributors_of item = Ok []) /\
  (Py.dict_get "contributors" item = None ->
   Py.dict_get "contributor" item = Some (JStr "X") ->
   contributors_of item = Ok [JStr "X"] /\
   forall b rec, normalize b (JObj item) = Ok rec ->
                 field "contributor[s]" rec = Some (JList [JStr "X"])).
Proof.
  unfold contributors_of, Py.or_, Py.get.
  split; [|split; [|split; [|split]]].
  - intros v Hv Ht. now rewrite Hv, Ht.
  - intros v Hv Ht. now rewrite Hv, Ht.
  - intros Hp. now rewrite Hp.
  - intros Hp Hs. now rewrite Hp, Hs.
  - intros Hp Hs. split; [now rewrite Hp, Hs|].
    intros b rec Hn.
    apply normalize_ok_inv in Hn as (cs & th & Hcs & _ & ->).
    rewrite field_contributors.
    unfold contributors_of, Py.or_, Py.get in Hcs.
    rewrite Hp, Hs in Hcs. simpl in Hcs. congruence.
Qed.

(** C8: the code does not do what the claim says.  On the record
    [{"contributor": "X"}] the contributors expression does fall back to
    the singular field and evaluates to [["X"]], but the record has no
    ["image_url"], so the dictionary display then raises [TypeError] at
    [len(item.get("image_url"))]: neither path yields a record, and
    neither function writes anything.  The same record with an
    ["image_url"] is normalised, with [["X"]] as its contributors. *)
Theorem contributor_only_record_raises :
  contributors_of [("contributor", JStr "X")] = Ok [JStr "X"] /\
  normalize false (JObj [("contributor", JStr "X")]) = Raise TypeError /\
  normalize true (JObj [("contributor", JStr "X")]) = Raise TypeError /\
  (forall item_id fs,
     get_item_details item_id
       (JObj [("item", JObj [("contributor", JStr "X")])]) fs
     = (Raise TypeError, fs)) /\
  (forall query fs,
     process_results query
       (JList [JObj [("id", JStr "a"); ("contributor", JStr "X")]]) fs
     = (Raise TypeError, fs)) /\
  (forall b, exists rec,
     normalize b (JObj [("contributor", JStr "X"); ("image_url", JList [])])
       = Ok rec /\
     field "contributor[s]" rec = Some (JList [JStr "X"])).
Proof.
  split; [reflexivity|]. split; [reflexivity|]. split; [reflexivity|].
  split; [|split].
  - intros item_id fs. unfold get_item_details. simpl.
    now destruct (load_or_empty_ok (fs !! item_file (item_key item_id)))
      as [obj ->].
  - intros query fs. unfold process_results.
    now destruct (load_or_empty_ok (fs !! query_file query)) as [obj ->].
  - intros b. eexists. split; [reflexivity|]. now destruct b.
Qed.

Lemma elem_of_map {A B} (f : A -> B) (l : list A) (y : B) :
  y ∈ map f l <-> exists x, y = f x /\ x ∈ l.
Proof.
  rewrite list_elem_of_In, in_map_iff. split.
  - intros (x & <- & Hx). exists x. now rewrite list_elem_of_In.
  - intros (x & -> & Hx). exists x. now rewrite <- list_elem_of_In.
Qed.

Lemma elem_of_rev {A} (l : list A) (x : A) : x ∈ rev l <-> x ∈ l.
Proof. rewrite !list_elem_of_In. symmetry. apply in_rev. Qed.

(** ** Dictionaries

    Keys are compared through a class function: the key itself for [str]
    keys, [key_class] for the keys of a Python [dict]. *)

Section DictFacts.
Context {K V C : Type} (eqb : K -> K -> bool) (cls : K -> C).
Hypothesis eqb_spec : forall a b, eqb a b = true <-> cls a = cls b.
Implicit Types (k : K) (v : V) (c : C) (d l : list (K * V)).

Local Abbreviation set := (dict_set eqb).
Local Abbreviation update := (dict_update eqb).
Local Abbreviation lookup := (dict_lookup eqb).
Local Abbreviation classes := (map (fun e : K * V => cls (fst e))).

Lemma eqb_refl k : eqb k k = true.
Proof. now apply eqb_spec. Qed.

Lemma eqb_ne a b : cls a <> cls b -> eqb a b = false.
Proof.
  intros Hne. destruct (eqb a b) eqn:E; [|reflexivity].
  now apply eqb_spec in E.
Qed.

Lemma dict_set_same k v v' d : set k v (set k v' d) = set k v d.
Proof.
  induction d as [|[k0 v0] d IH]; simpl.
  - now rewrite eqb_refl.
  - destruct (eqb k0 k) eqn:E; simpl; rewrite E; [reflexivity|].
    now rewrite IH.
Qed.

Lemma dict_set_comm k1 k2 v1 v2 d :
  cls k1 <> cls k2 -> cls k1 ∈ classes d ->
  set k1 v1 (set k2 v2 d) = set k2 v2 (set k1 v1 d).
Proof.
  intros Hne. induction d as [|[k0 v0] d IH]; simpl; intros Hin.
  - now apply elem_of_nil in Hin.
  - destruct (eqb k0 k2) eqn:E2, (eqb k0 k1) eqn:E1; simpl;
      rewrite ?E1, ?E2; try reflexivity.
    + apply eqb_spec in E1, E2. congruence.
    + f_equal. apply IH.
      apply elem_of_cons in Hin as [Heq|Hin]; [|exact Hin].
      symmetry in Heq. apply eqb_spec in Heq. congruence.
Qed.

Lemma dict_set_classes k v d c :
  c ∈ classes (set k v d) <-> c = cls k \/ c ∈ classes d.
Proof.
  induction d as [|[k0 v0] d IH]; simpl.
  - rewrite list_elem_of_singleton, elem_of_nil. tauto.
  - destruct (eqb k0 k) eqn:E; simpl.
    + apply eqb_spec in E. rewrite !elem_of_cons, E. tauto.
    + rewrite !elem_of_cons, IH. tauto.
Qed.

Lemma dict_update_classes l d c :
  c ∈ classes (update l d) <-> c ∈ classes l \/ c ∈ classes d.
Proof.
  revert d. induction l as [|[k v] l IH]; intros d.
  - simpl. rewrite elem_of_nil. tauto.
  - unfold dict_update in *. simpl. rewrite IH, dict_set_classes.
    rewrite elem_of_cons. tauto.
Qed.

Lemma dict_update_snoc l k v d :
  update (l ++ [(k, v)]) d = set k v (update l d).
Proof. unfold dict_update. now rewrite fold_left_app. Qed.

Lemma dict_set_same_cls k k' v v' d :
  cls k = cls k' -> cls k ∈ classes d ->
  set k v (set k' v' d) = set k v d.
Proof.
  intros Hc. induction d as [|[k0 v0] d IH]; simpl; intros Hin.
  - now apply elem_of_nil in Hin.
  - assert (E : eqb k0 k' = eqb k0 k).
    { destruct (eqb k0 k) eqn:E.
      - apply eqb_spec. apply eqb_spec in E. congruence.
      - apply eqb_ne. intros Hc'.
        assert (E' : eqb k0 k = true) by (apply eqb_spec; congruence).
        congruence. }
    rewrite E. destruct (eqb k0 k) eqn:E0; simpl; rewrite E0; [reflexivity|].
    f_equal. apply IH.
    apply elem_of_cons in Hin as [Heq|Hin]; [|exact Hin].
    symmetry in Heq. apply eqb_spec in Heq. congruence.
Qed.

Lemma dict_update_absorb l k v v' d :
  (forall c, c ∈ classes l -> c ∈ classes d) ->
  set k v (update l (set k v' d)) = set k v (update l d).
Proof.
  revert d v'. induction l as [|[k1 v1] l IH]; intros d v' Hsub.
  - apply dict_set_same.
  - unfold dict_update in *. simpl.
    assert (Hk1 : cls k1 ∈ classes d).
    { apply Hsub. simpl. apply elem_of_cons. now left. }
    assert (Hl : forall c, c ∈ classes l -> c ∈ classes (set k1 v1 d)).
    { intros c Hc. apply dict_set_classes. right. apply Hsub.
      simpl. apply elem_of_cons. now right. }
    destruct (eqb k1 k) eqn:E.
    + apply eqb_spec in E. now rewrite dict_set_same_cls.
    + rewrite dict_set_comm.
      * now apply IH.
      * intros Hc. apply eqb_spec in Hc. congruence.
      * exact Hk1.
Qed.

(** Updating twice with the same pairs is updating once. *)
Lemma dict_update_idem l d : update l (update l d) = update l d.
Proof.
  revert d. induction l as [|[k v] l IH] using rev_ind; intros d.
  - reflexivity.
  - rewrite !dict_update_snoc.
    rewrite dict_update_absorb.
    + now rewrite IH.
    + intros c Hc. apply dict_update_classes. now left.
Qed.

Lemma dict_set_fresh k v d :
  cls k ∉ classes d -> set k v d = d ++ [(k, v)].
Proof.
  induction d as [|[k0 v0] d IH]; simpl; intros Hk; [reflexivity|].
  rewrite not_elem_of_cons in Hk. destruct Hk as [Hne Hk].
  rewrite eqb_ne by congruence. f_equal. now apply IH.
Qed.

Lemma dict_update_fresh l d :
  NoDup (classes (d ++ l)) -> update l d = d ++ l.
Proof.
  revert d. induction l as [|[k v] l IH]; intros d Hnd.
  - unfold dict_update. simpl. now rewrite app_nil_r.
  - unfold dict_update in *. simpl.
    replace (d ++ (k, v) :: l) with ((d ++ [(k, v)]) ++ l) in *
      by now rewrite <- app_assoc.
    rewrite dict_set_fresh.
    + now apply IH.
    + rewrite !map_app in Hnd. simpl in Hnd.
      apply NoDup_app in Hnd as (Hnd & _ & _).
      apply NoDup_app in Hnd as (_ & Hdis & _).
      intros Hin. apply (Hdis _ Hin). apply list_elem_of_singleton.
      reflexivity.
Qed.

(** A dictionary survives the round trip through its own pairs. *)
Lemma dict_of_pairs_id d : NoDup (classes d) -> dict_of_pairs eqb d = d.
Proof. intros Hnd. unfold dict_of_pairs. now rewrite dict_update_fresh. Qed.

Lemma dict_set_NoDup k v d :
  NoDup (classes d) -> NoDup (classes (set k v d)).
Proof.
  induction d as [|[k0 v0] d IH]; simpl; intros Hnd.
  - apply NoDup_singleton.
  - apply NoDup_cons in Hnd as [Hk0 Hnd].
    destruct (eqb k0 k) eqn:E; simpl.
    + now apply NoDup_cons.
    + apply NoDup_cons. split; [|now apply IH].
      rewrite dict_set_classes. intros [Heq|Hin]; [|tauto].
      apply eqb_spec in Heq. congruence.
Qed.

Lemma dict_update_NoDup l d :
  NoDup (classes d) -> NoDup (classes (update l d)).
Proof.
  revert d. induction l as [|[k v] l IH]; intros d Hnd; [exact Hnd|].
  unfold dict_update in *. simpl. apply IH. now apply dict_set_NoDup.
Qed.
(** *** What an assignment leaves in the dictionary *)

Lemma dict_set_elem k v d k' v' :
  NoDup (classes d) ->
  (k', v') ∈ set k v d ->
  (v' = v /\ cls k' = cls k) \/ ((k', v') ∈ d /\ cls k' <> cls k).
Proof.
  induction d as [|[k0 v0] d IH]; simpl; intros Hnd Hin.
  - apply list_elem_of_singleton in Hin. left. now inversion Hin.
  - apply NoDup_cons in Hnd as [Hk0 Hnd].
    destruct (eqb k0 k) eqn:E.
    + apply eqb_spec in E.
      apply elem_of_cons in Hin as [Heq|Hin].
      * left. inversion Heq. now subst.
      * right. split; [apply elem_of_cons; now right|].
        intros Hc. apply Hk0. apply elem_of_map.
        exists (k', v'). simpl. split; [congruence | exact Hin].
    + apply elem_of_cons in Hin as [Heq|Hin].
      * right. inversion Heq; subst. split; [apply elem_of_cons; now left|].
        intros Hc. apply eqb_spec in Hc. congruence.
      * destruct (IH Hnd Hin) as [?|[? ?]]; [now left|].
        right. split; [apply elem_of_cons; now right | assumption].
Qed.

Lemma dict_set_keys k v d k' :
  k' ∈ map fst (set k v d) -> k' = k \/ k' ∈ map fst d.
Proof.
  induction d as [|[k0 v0] d IH]; simpl; intros Hin.
  - apply list_elem_of_singleton in Hin. now left.
  - destruct (eqb k0 k); simpl in Hin.
    + now right.
    + apply elem_of_cons in Hin as [->|Hin].
      * right. apply elem_of_cons. now left.
      * destruct (IH Hin) as [?|?]; [now left|].
        right. apply elem_of_cons. now right.
Qed.


Lemma dict_update_elem l d k' v' :
  NoDup (classes d) ->
  (k', v') ∈ update l d ->
  (exists k, (k, v') ∈ l /\ cls k = cls k') \/
  ((k', v') ∈ d /\ forall p, p ∈ l -> cls (fst p) <> cls k').
Proof.
  revert d. induction l as [|[k v] l IH]; intros d Hnd Hin.
  - right. split; [exact Hin|]. intros p Hp. now apply elem_of_nil in Hp.
  - unfold dict_update in *. simpl in Hin.
    destruct (IH _ (dict_set_NoDup k v d Hnd) Hin)
      as [(k1 & Hk1 & Hc)|[Hin' Hall]].
    + left. exists k1. split; [apply elem_of_cons; now right | exact Hc].
    + destruct (dict_set_elem _ _ _ _ _ Hnd Hin') as [[-> Hc]|[Hd Hc]].
      * left. exists k. split; [apply elem_of_cons; now left | congruence].
      * right. split; [exact Hd|].
        intros p Hp. apply elem_of_cons in Hp as [->|Hp]; simpl; auto.
Qed.

Lemma dict_update_keys l d k' :
  k' ∈ map fst (update l d) -> k' ∈ map fst l \/ k' ∈ map fst d.
Proof.
  revert d. induction l as [|[k v] l IH]; intros d Hin.
  - now right.
  - unfold dict_update in *. simpl in Hin.
    destruct (IH _ Hin) as [?|Hin'].
    + left. simpl. apply elem_of_cons. now right.
    + apply dict_set_keys in Hin' as [->|?]; [left|now right].
      simpl. apply elem_of_cons. now left.
Qed.


(** *** Lookup *)

Lemma lookup_set k v d k' :
  lookup k' (set k v d) = if eqb k k' then Some v else lookup k' d.
Proof.
  induction d as [|[k0 v0] d IH]; simpl; [reflexivity|].
  destruct (eqb k0 k) eqn:E; simpl.
  - destruct (eqb k0 k') eqn:E'.
    + replace (eqb k k') with true; [reflexivity|].
      symmetry. apply eqb_spec. apply eqb_spec in E, E'. congruence.
    + replace (eqb k k') with false; [reflexivity|].
      symmetry. apply eqb_ne. intros Hc.
      apply eqb_spec in E. rewrite <- E in Hc. apply eqb_spec in Hc.
      congruence.
  - destruct (eqb k0 k') eqn:E'; [|exact IH].
    replace (eqb k k') with false; [reflexivity|].
    symmetry. apply eqb_ne. intros Hc.
    apply eqb_spec in E'. rewrite <- Hc in E'. apply eqb_spec in E'.
    congruence.
Qed.

(** After an update the live binding of a key is its last one among the
    pairs, and the former one when the pairs have none. *)
Lemma lookup_update l d k :
  lookup k (update l d) =
    match lookup k (rev l) with
    | Some v => Some v
    | None => lookup k d
    end.
Proof.
  revert d. induction l as [|[k1 v1] l IH] using rev_ind; intros d.
  - reflexivity.
  - rewrite dict_update_snoc, lookup_set, rev_app_distr. simpl.
    destruct (eqb k1 k); [reflexivity | apply IH].
Qed.

Lemma lookup_elem k v d :
  lookup k d = Some v -> exists k', cls k' = cls k /\ (k', v) ∈ d.
Proof.
  induction d as [|[k0 v0] d IH]; simpl; [discriminate|].
  destruct (eqb k0 k) eqn:E.
  - intros [= ->]. exists k0. split; [now apply eqb_spec|].
    apply elem_of_cons. now left.
  - intros H. destruct (IH H) as (k' & Hc & Hin).
    exists k'. split; [exact Hc | apply elem_of_cons; now right].
Qed.

Lemma elem_lookup k v d :
  (k, v) ∈ d -> exists v', lookup k d = Some v'.
Proof.
  induction d as [|[k0 v0] d IH]; simpl; intros Hin.
  - now apply elem_of_nil in Hin.
  - destruct (eqb k0 k) eqn:E; [eauto|].
    apply elem_of_cons in Hin as [Heq|Hin]; [|auto].
    inversion Heq; subst. now rewrite eqb_refl in E.
Qed.

Lemma elem_lookup_NoDup k v d :
  NoDup (classes d) -> (k, v) ∈ d -> lookup k d = Some v.
Proof.
  induction d as [|[k0 v0] d IH]; simpl; intros Hnd Hin.
  - now apply elem_of_nil in Hin.
  - apply NoDup_cons in Hnd as [Hk0 Hnd].
    apply elem_of_cons in Hin as [Heq|Hin].
    + inversion Heq; subst. now rewrite eqb_refl.
    + destruct (eqb k0 k) eqn:E; [|auto].
      exfalso. apply Hk0. apply elem_of_map. exists (k, v). simpl.
      split; [now apply eqb_spec | exact Hin].
Qed.
End DictFacts.

(** ** The loop of [process_results] *)

Section Loop.
Implicit Types (item id : json) (items ids : list json)
  (d : list (pykey * json)) (es : list (json * (pykey * json))).

Lemma str_eqb_spec (a b : string) : String.eqb a b = true <-> a = b.
Proof. apply String.eqb_eq. Qed.

Lemma pykey_eqb_spec (a b : pykey) :
  pykey_eqb a b = true <-> key_class a = key_class b.
Proof. unfold pykey_eqb. apply bool_decide_eq_true. Qed.

Lemma key_class_str s k : key_class k = key_class (KStr s) -> k = KStr s.
Proof. destruct k as [t|n|b|]; simpl; congruence. Qed.

Lemma process_results_unfold query results fs :
  process_results query results fs =
    match run_loop (fs !! query_file query) results with
    | Ok (item_ids, items_info) =>
        (Ok (item_ids, items_info),
         <[query_file query := Valid (json_dump items_info)]> fs)
    | Raise e => (Raise e, fs)
    end.
Proof. reflexivity. Qed.

Lemma process_results_run query results fs ids obj :
run_loop (fs !! query_file query) results = Ok (ids, obj) ->
process_results query results fs =
  (Ok (ids, obj), <[query_file query := Valid (json_dump obj)]> fs).
Proof. intros H. now rewrite process_results_unfold, H. Qed.

(** On a [dict] the loop is an update with the entries of the batch. *)
Lemma for_each_dict items ids d :
  for_each items (ids, PDict d) =
    es ← entries_of items;
    Ok (ids ++ map fst es, PDict (dict_update pykey_eqb (map snd es) d)).
Proof.
  revert ids d. induction items as [|item items IH]; intros ids d; simpl.
  - now rewrite app_nil_r.
  - unfold loop_body, entry_of. simpl.
    destruct (Py.subscript item "id") as [id|e]; simpl; [|reflexivity].
    destruct (normalize false item) as [info|e]; simpl; [|reflexivity].
    destruct (py_hash id) as [k|e]; simpl; [|reflexivity].
    rewrite IH. destruct (entries_of items) as [es|e]; simpl; [|reflexivity].
    now rewrite <- app_assoc.
Qed.

(** Each entry comes from a record of the batch. *)
Lemma entries_of_spec items es :
  entries_of items = Ok es ->
  Forall2 (fun item e =>
             Py.subscript item "id" = Ok (fst e) /\
             py_hash (fst e) = Ok (fst (snd e)) /\
             normalize false item = Ok (snd (snd e))) items es.
Proof.
  revert es. induction items as [|item items IH]; intros es; simpl.
  - intros [= <-]. constructor.
  - unfold entry_of.
    destruct (Py.subscript item "id") as [id|e] eqn:Hid; simpl;
      [|discriminate].
    destruct (normalize false item) as [info|e] eqn:Hn; simpl;
      [|discriminate].
    destruct (py_hash id) as [k|e] eqn:Hk; simpl; [|discriminate].
    destruct (entries_of items) as [es'|e]; simpl; [|discriminate].
    intros [= <-]. constructor; [now repeat split | now apply IH].
Qed.

(** Anything but a [dict] in the file stops a batch of [str]
    identifiers at its first record. *)
Lemma for_each_not_dict items ids obj st :
  (forall d, obj <> PDict d) ->
  forallb id_is_str items = true ->
  for_each items (ids, obj) = Ok st -> items = [].
Proof.
  intros Hobj. destruct items as [|item items]; [reflexivity|]. simpl.
  intros Hstr%andb_prop. destruct Hstr as [Hstr _].
  unfold loop_body, id_is_str in *.
  destruct (Py.subscript item "id") as [id|e]; simpl; [|discriminate].
  destruct (normalize false item) as [info|e]; simpl; [|discriminate].
  destruct id; try discriminate.
  destruct obj as [d|l|v]; simpl; try discriminate.
  now destruct (Hobj d).
Qed.

Lemma entries_of_str items es :
  forallb id_is_str items = true ->
  entries_of items = Ok es ->
  forall e, e ∈ es -> exists s, fst (snd e) = KStr s.
Proof.
  revert es. induction items as [|item items IH]; intros es; simpl.
  - intros _ [= <-] e He. now apply elem_of_nil in He.
  - intros Hstr%andb_prop. destruct Hstr as [Hstr Hall].
    unfold entry_of, id_is_str in *.
    destruct (Py.subscript item "id") as [id|e]; simpl; [|discriminate].
    destruct (normalize false item) as [info|e]; simpl; [|discriminate].
    destruct id; try discriminate. simpl.
    destruct (entries_of items) as [es'|e]; simpl; [|discriminate].
    intros [= <-] e He. apply elem_of_cons in He as [->|He].
    + simpl. eauto.
    + now apply (IH es').
Qed.
End Loop.

(** ** Writing a mapping and reading it back *)

Section RoundTrip.
Implicit Types (d : list (pykey * json)) (kvs : list (string * json)).


Lemma lift_str_keys kvs : str_keys (lift kvs).
Proof.
  intros e (kv & -> & _)%elem_of_map. simpl. eauto.
Qed.

Lemma lift_classes_NoDup kvs : NoDup (map fst kvs) -> NoDup (classes (lift kvs)).
Proof.
  induction kvs as [|[k v] kvs IH]; simpl; intros Hnd; [constructor|].
  apply NoDup_cons in Hnd as [Hk Hnd]. apply NoDup_cons. split; [|auto].
  intros (e & He & (kv & -> & Hkv)%elem_of_map)%elem_of_map. simpl in He.
  apply Hk. apply elem_of_map. exists kv. split; [congruence | exact Hkv].
Qed.

Lemma names_lift d : str_keys d -> lift (names d) = d.
Proof.
  induction d as [|[k v] d IH]; simpl; intros Hs; [reflexivity|].
  destruct (Hs (k, v)) as [s Hk]; [apply elem_of_cons; now left|].
  simpl in Hk. subst k. simpl. f_equal. apply IH.
  intros e He. apply Hs. apply elem_of_cons. now right.
Qed.

Lemma names_NoDup d :
  str_keys d -> NoDup (classes d) -> NoDup (map fst (names d)).
Proof.
  induction d as [|[k v] d IH]; simpl; intros Hs Hnd; [constructor|].
  apply NoDup_cons in Hnd as [Hk Hnd].
  assert (Hs' : str_keys d).
  { intros e He. apply Hs. apply elem_of_cons. now right. }
  apply NoDup_cons. split; [|auto].
  intros (e & He & (e' & -> & He')%elem_of_map)%elem_of_map. simpl in He.
  apply Hk. apply elem_of_map. exists e'. split; [|exact He'].
  destruct (Hs (k, v)) as [s Hks]; [apply elem_of_cons; now left|].
  destruct (Hs' e' He') as [s' Hks'].
  simpl in Hks. rewrite Hks, Hks' in *. simpl in He. congruence.
Qed.

(** A [dict] with [str] keys is read back as it was written. *)
Lemma dump_load_dict d :
  str_keys d -> NoDup (classes d) ->
  of_json (json_dump (PDict d)) = PDict d.
Proof.
  intros Hs Hnd. simpl.
  rewrite (dict_of_pairs_id String.eqb (fun s => s) str_eqb_spec).
  - now rewrite names_lift.
  - now apply names_NoDup.
Qed.

Lemma dict_update_str_keys l d :
  str_keys l -> str_keys d -> str_keys (dict_update pykey_eqb l d).
Proof.
  intros Hl Hd [k v] Hin. simpl.
  assert (Hk : k ∈ map fst (dict_update pykey_eqb l d)).
  { apply elem_of_map. now exists (k, v). }
  apply (dict_update_keys pykey_eqb) in Hk as [Hk|Hk];
    apply elem_of_map in Hk as (e & -> & He); auto.
Qed.

(** What the [try] block binds to [items_info]. *)
Lemma load_or_empty_shape file obj :
  unique_keys file ->
  load_or_empty file = Ok obj ->
  (exists d, obj = PDict d /\ str_keys d /\ NoDup (classes d)) \/
  ((forall d, obj <> PDict d) /\ of_json (json_dump obj) = obj).
Proof.
  destruct file as [[t|v]|]; simpl.
  - intros _ [= <-]. left. exists []. repeat split; [|constructor].
    intros e He. now apply elem_of_nil in He.
  - intros Hu [= <-]. destruct v; simpl;
      try (right; split; [discriminate | reflexivity]).
    left. eexists. split; [reflexivity|].
    split; [apply lift_str_keys | now apply lift_classes_NoDup].
  - intros _ [= <-]. left. exists []. repeat split; [|constructor].
    intros e He. now apply elem_of_nil in He.
Qed.

(** Run on the file it has just written, the loop returns what it
    returned, provided the identifiers of the batch are [str]. *)
Lemma run_loop_again file results ids obj :
  unique_keys file ->
  ids_are_str results = true ->
  run_loop file results = Ok (ids, obj) ->
  run_loop (Some (Valid (json_dump obj))) results = Ok (ids, obj).
Proof.
  intros Hu Hstr. unfold run_loop, ids_are_str in *.
  destruct (load_or_empty file) as [obj0|e] eqn:Hload; simpl; [|discriminate].
  destruct (Py.iter results) as [items|e]; simpl; [|discriminate].
  destruct (load_or_empty_shape _ _ Hu Hload)
    as [(d0 & -> & Hs0 & Hnd0)|[Hnot Hrt]].
  - rewrite for_each_dict.
    destruct (entries_of items) as [es|e] eqn:Hes; simpl; [|discriminate].
    intros [= <- <-].
    rewrite dump_load_dict.
    + rewrite for_each_dict, Hes. simpl.
      now rewrite (dict_update_idem pykey_eqb key_class pykey_eqb_spec).
    + apply dict_update_str_keys; [|exact Hs0].
      intros e (e' & -> & He')%elem_of_map.
      apply (entries_of_str items es Hstr Hes e' He').
    + now apply (dict_update_NoDup pykey_eqb key_class pykey_eqb_spec).
  - intros Hfor.
    pose proof (for_each_not_dict _ _ _ _ Hnot Hstr Hfor) as ->.
    simpl in Hfor. injection Hfor as <- <-. now rewrite Hrt.
Qed.
End RoundTrip.

(** ** Idempotence of the merge *)

(** C4, as stated, fails: with the identifiers [5] and ["5"] in one batch,
    both are written under the name ["5"]; the first run leaves the record
    of the second identifier there, the second run the record of the
    first. *)
Lemma process_results_twice_differs :
  mapping_at (query_file "q") (process_results "q" mixed_batch ∅).2 <>
  mapping_at (query_file "q")
    (process_results "q" mixed_batch (process_results "q" mixed_batch ∅).2).2.
Proof. vm_compute. discriminate. Qed.

(** C4, amended: when the identifiers of the batch are strings, running
    [process_results] a second time with the same query and the same
    records returns what the first run returned and leaves the file system
    as the first run left it, whatever the bucket file held before. *)
Theorem process_results_idempotent query results fs :
  unique_keys (fs !! query_file query) ->
  ids_are_str results = true ->
  process_results query results (process_results query results fs).2 =
  process_results query results fs.
Proof.
  intros Hu Hstr. rewrite (process_results_unfold query results fs).
  destruct (run_loop (fs !! query_file query) results) as [[ids obj]|e] eqn:Hrun;
    simpl.
  - rewrite process_results_unfold, lookup_insert_eq.
    rewrite (run_loop_again _ _ _ _ Hu Hstr Hrun).
    now rewrite insert_insert_eq.
  - now rewrite process_results_unfold, Hrun.
Qed.

Lemma process_results_idempotent_witness :
  process_results "civil war" sample_batch
    (process_results "civil war" sample_batch sample_fs).2 =
  process_results "civil war" sample_batch sample_fs.
Proof.
  apply process_results_idempotent.
  - vm_compute. refine (bool_decide_unpack _ _). vm_compute. exact I.
  - reflexivity.
Defined.

(** ** A record without identifier *)

Section MissingId.
Lemma for_each_app items1 items2 st :
  for_each (items1 ++ items2) st = for_each items1 st ≫= for_each items2.
Proof.
  revert st. induction items1 as [|item items1 IH]; intros st; simpl.
  - reflexivity.
  - destruct (loop_body st item) as [st'|e]; simpl; [apply IH | reflexivity].
Qed.

Lemma loop_body_no_id st r :
  Py.dict_get "id" r = None -> loop_body st (JObj r) = Raise KeyError.
Proof. intros H. unfold loop_body. simpl. now rewrite H. Qed.
End MissingId.

(** C9: when a record of the batch has no ["id"], [process_results]
    raises and the file system is as it was: nothing of the batch is
    written.  The exception is the [KeyError] of [item['id']] whenever the
    records before it go through, that is whenever the call on those
    records alone returns. *)
Theorem missing_id_raises query pre r post fs :
  Py.dict_get "id" r = None ->
  (exists e,
     process_results query (JList (pre ++ JObj r :: post)) fs = (Raise e, fs)) /\
  (is_ok (process_results query (JList pre) fs).1 = true ->
   process_results query (JList (pre ++ JObj r :: post)) fs
     = (Raise KeyError, fs)).
Proof.
  intros Hid. rewrite !process_results_unfold. unfold run_loop.
  destruct (load_or_empty_ok (fs !! query_file query)) as [obj ->]. simpl.
  rewrite for_each_app.
  destruct (for_each pre ([], obj)) as [[ids obj']|e]; simpl.
  - rewrite loop_body_no_id by exact Hid. simpl. eauto.
  - split; [eauto | discriminate].
Qed.

Lemma missing_id_raises_witness :
  process_results "civil war"
    (JList ([sample_record] ++ JObj [("title", JStr "No id")] :: [])) sample_fs
  = (Raise KeyError, sample_fs).
Proof.
  apply (missing_id_raises "civil war" [sample_record]
           [("title", JStr "No id")] [] sample_fs);
    reflexivity.
Defined.

(** ** The item bucket *)

Lemma dump_item_info b item cs th :
  json_dump (of_json (item_info_of b item cs th)) = item_info_of b item cs th.
Proof. destruct b; reflexivity. Qed.

Lemma get_item_details_unfold item_id response fs :
  get_item_details item_id response fs =
    match Py.subscript response "item" ≫= normalize true with
    | Ok item_info =>
        (Ok (item_key item_id, item_info),
         <[item_file (item_key item_id) := Valid item_info]> fs)
    | Raise e => (Raise e, fs)
    end.
Proof.
  unfold get_item_details.
  destruct (Py.subscript response "item") as [item|e]; simpl; [|reflexivity].
  destruct (load_or_empty_ok (fs !! item_file (item_key item_id))) as [obj ->].
  simpl. destruct item; simpl; try reflexivity.
  destruct (normalize_fields true kvs) as [rec|e] eqn:Hn; [|reflexivity].
  destruct (normalize_ok_inv true kvs rec Hn) as (cs & th & _ & _ & ->).
  now rewrite dump_item_info.
Qed.

(** ** What the bucket file holds after a merge *)

Section Persisted.
Implicit Types (d : list (pykey * json)) (kvs old : list (string * json))
  (es : list (json * (pykey * json))) (items : list json).


Lemma dict_get_lookup k kvs : Py.dict_get k kvs = dict_lookup String.eqb k kvs.
Proof.
  induction kvs as [|[k0 v0] kvs IH]; simpl; [reflexivity|].
  rewrite String.eqb_sym. now rewrite IH.
Qed.

Lemma written_elem d k v :
  Py.dict_get k (written d) = Some v ->
  exists k', key_str k' = k /\ (k', v) ∈ d.
Proof.
  rewrite dict_get_lookup. unfold dict_of_pairs.
  rewrite (lookup_update String.eqb (fun s => s) str_eqb_spec). simpl.
  destruct (dict_lookup String.eqb k (rev (names d))) as [v'|] eqn:Hl;
    [|discriminate].
  intros [= ->].
  apply (lookup_elem String.eqb (fun s => s) str_eqb_spec) in Hl
    as (k1 & -> & Hin).
  apply elem_of_rev, elem_of_map in Hin as ([k' v'] & [= -> ->] & Hin).
  now exists k'.
Qed.

Lemma written_some d k' v :
  (k', v) ∈ d -> is_Some (Py.dict_get (key_str k') (written d)).
Proof.
  intros Hin. rewrite dict_get_lookup. unfold dict_of_pairs.
  rewrite (lookup_update String.eqb (fun s => s) str_eqb_spec). simpl.
  assert (Hn : (key_str k', v) ∈ rev (names d)).
  { apply elem_of_rev, elem_of_map. now exists (k', v). }
  apply (elem_lookup String.eqb (fun s => s) str_eqb_spec) in Hn as [v' ->].
  eauto.
Qed.

(** When every entry written under a name carries the same record, that
    record is the one read back. *)
Lemma written_unique d k' v :
  (k', v) ∈ d ->
  (forall k1 v1, (k1, v1) ∈ d -> key_str k1 = key_str k' -> v1 = v) ->
  Py.dict_get (key_str k') (written d) = Some v.
Proof.
  intros Hin Huniq. destruct (written_some d k' v Hin) as [v' Hv'].
  rewrite Hv'. apply written_elem in Hv' as (k1 & Hk1 & Hin1).
  f_equal. now apply (Huniq k1).
Qed.

Lemma lift_elem kvs k v : (k, v) ∈ lift kvs <-> exists s, k = KStr s /\ (s, v) ∈ kvs.
Proof.
  rewrite elem_of_map. split.
  - intros ([s v'] & [= -> ->] & Hin). eauto.
  - intros (s & -> & Hin). now exists (s, v).
Qed.

Lemma entries_of_elem items es e :
  entries_of items = Ok es -> e ∈ es ->
  py_hash (fst e) = Ok (fst (snd e)) /\
  exists item, item ∈ items /\
               Py.subscript item "id" = Ok (fst e) /\
               normalize false item = Ok (snd (snd e)).
Proof.
  intros Hes%entries_of_spec. induction Hes as [|item e' items es H _ IH].
  - intros He. now apply elem_of_nil in He.
  - intros [->|He]%elem_of_cons.
    + destruct H as (? & ? & ?). split; [assumption|].
      exists item. split; [apply elem_of_cons; now left | now split].
    + destruct (IH He) as (? & item' & ? & ?). split; [assumption|].
      exists item'. split; [apply elem_of_cons; now right | assumption].
Qed.

(** The successful runs of [process_results] on a bucket that holds a
    mapping, or nothing readable. *)
Lemma process_results_dict query results fs d0 ids obj fs' :
  load_or_empty (fs !! query_file query) = Ok (PDict d0) ->
  process_results query results fs = (Ok (ids, obj), fs') ->
  exists items es,
    Py.iter results = Ok items /\ entries_of items = Ok es /\
    ids = map fst es /\
    obj = PDict (dict_update pykey_eqb (map snd es) d0) /\
    fs' = <[query_file query :=
              Valid (JObj (written (dict_update pykey_eqb (map snd es) d0)))]> fs.
Proof.
  intros Hload. rewrite process_results_unfold. unfold run_loop.
  rewrite Hload. simpl.
  destruct (Py.iter results) as [items|e]; simpl; [|discriminate].
  rewrite for_each_dict.
  destruct (entries_of items) as [es|e] eqn:Hes; simpl; [|discriminate].
  intros [= <- <- <-]. exists items, es. now repeat split.
Qed.


Lemma dict_get_elem k v kvs : Py.dict_get k kvs = Some v -> (k, v) ∈ kvs.
Proof.
  rewrite dict_get_lookup. intros H.
  now apply (lookup_elem String.eqb (fun s => s) str_eqb_spec) in H
    as (k' & -> & Hin).
Qed.



(** A [str] identifier of the batch is a key of what is written. *)
Lemma written_str_id es d s :
  (exists e, e ∈ es /\ fst (snd e) = KStr s) ->
  is_Some (Py.dict_get s (written (dict_update pykey_eqb (map snd es) d))).
Proof.
  intros (e & He & Hk).
  assert (Hc : key_class (KStr s) ∈
               classes (dict_update pykey_eqb (map snd es) d)).
  { apply (dict_update_classes pykey_eqb key_class pykey_eqb_spec). left.
    apply elem_of_map. exists (snd e). rewrite Hk. split; [reflexivity|].
    apply elem_of_map. now exists e. }
  apply elem_of_map in Hc as ([k' v'] & Hc & Hin). simpl in Hc.
  symmetry in Hc. apply key_class_str in Hc. subst k'.
  apply (written_some _ (KStr s) v' Hin).
Qed.

Lemma mapping_at_inv path fs kvs :
  mapping_at path fs = Some kvs -> fs !! path = Some (Valid (JObj kvs)).
Proof.
  unfold mapping_at. destruct (fs !! path) as [[t|[]]|]; congruence.
Qed.
End Persisted.



(** ** Read failures *)

Section ReadErrors.
Lemma load_unreadable file : unreadable file -> load_or_empty file = Ok (PDict []).
Proof. now intros [->|[t ->]]. Qed.

Lemma thumbnail_of_exn item e :
  thumbnail_of item = Raise e -> is_read_error e = false.
Proof.
  unfold thumbnail_of.
  destruct (Py.len (Py.get_none item "image_url")) as [n|e'] eqn:Hlen; simpl.
  - destruct (0 <? n)%nat; [|discriminate].
    destruct (Py.get item "image_url" _) as [| | |[|]|[|]|]; simpl;
      try discriminate; now intros [= <-].
  - destruct (Py.get_none item "image_url"); simpl in Hlen;
      try discriminate; injection Hlen as <-; now intros [= <-].
Qed.

Lemma normalize_exn b item e :
  normalize b item = Raise e -> is_read_error e = false.
Proof.
  destruct item; simpl; try (now intros [= <-]). unfold normalize_fields.
  destruct (contributors_of kvs) as [cs|e'] eqn:Hcs; simpl.
  - destruct (thumbnail_of kvs) as [th|e'] eqn:Hth; simpl; [discriminate|].
    intros [= <-]. now apply thumbnail_of_exn in Hth.
  - intros [= <-]. now apply contributors_of_exn in Hcs as ->.
Qed.

Lemma subscript_exn v k e :
  Py.subscript v k = Raise e -> is_read_error e = false.
Proof.
  destruct v; simpl; try (now intros [= <-]).
  destruct (Py.dict_get k kvs); [discriminate | now intros [= <-]].
Qed.

Lemma py_setitem_exn obj key v e :
  py_setitem obj key v = Raise e -> is_read_error e = false.
Proof.
  destruct obj as [d|l|a]; simpl.
  - destruct key; simpl; try discriminate; now intros [= <-].
  - destruct (list_index key) as [i|]; [|now intros [= <-]].
    repeat case_match; try discriminate; now intros [= <-].
  - now intros [= <-].
Qed.

Lemma loop_body_exn st item e :
  loop_body st item = Raise e -> is_read_error e = false.
Proof.
  unfold loop_body.
  destruct (Py.subscript item "id") as [id|e'] eqn:Hid; simpl.
  - destruct (normalize false item) as [info|e'] eqn:Hn; simpl.
    + destruct (py_setitem st.2 id info) as [obj|e'] eqn:Hs; simpl;
        [discriminate|].
      intros [= <-]. now apply py_setitem_exn in Hs.
    + intros [= <-]. now apply normalize_exn in Hn.
  - intros [= <-]. now apply subscript_exn in Hid.
Qed.

Lemma for_each_exn items st e :
  for_each items st = Raise e -> is_read_error e = false.
Proof.
  revert st. induction items as [|item items IH]; intros st; simpl.
  - discriminate.
  - destruct (loop_body st item) as [st'|e'] eqn:Hb; simpl; [apply IH|].
    intros [= <-]. now apply loop_body_exn in Hb.
Qed.

Lemma run_loop_exn file results e :
  run_loop file results = Raise e -> is_read_error e = false.
Proof.
  unfold run_loop. destruct (load_or_empty_ok file) as [obj ->]. simpl.
  destruct (Py.iter results) as [items|e'] eqn:Hit; simpl.
  - apply for_each_exn.
  - intros [= <-]. destruct results; simpl in Hit; try discriminate;
      now injection Hit as <-.
Qed.
End ReadErrors.

(** ** Overwriting on recurrence *)

Section Overwrite.
Implicit Types (d : list (pykey * json)) (old : list (string * json))
  (es : list (json * (pykey * json))) (items pre post : list json).

Lemma py_hash_str id s : py_hash id = Ok (KStr s) -> id = JStr s.
Proof. destruct id; simpl; congruence. Qed.

Lemma entries_of_app pre item post es :
  entries_of (pre ++ item :: post) = Ok es ->
  exists es1 e es2,
    es = es1 ++ e :: es2 /\
    entries_of pre = Ok es1 /\ entry_of item = Ok e /\
    entries_of post = Ok es2.
Proof.
  revert es. induction pre as [|item' pre IH]; intros es; simpl.
  - destruct (entry_of item) as [e|x]; simpl; [|discriminate].
    destruct (entries_of post) as [es2|x]; simpl; [|discriminate].
    intros [= <-]. now exists [], e, es2.
  - destruct (entry_of item') as [e'|x]; simpl; [|discriminate].
    destruct (entries_of (pre ++ item :: post)) as [es'|x]; simpl;
      [|discriminate].
    intros [= <-].
    destruct (IH es' eq_refl) as (es1 & e & es2 & -> & -> & He & Hpost).
    exists (e' :: es1), e, es2. simpl. now repeat split.
Qed.

Lemma lookup_skip (l1 l2 : list (pykey * json)) k :
  (forall p, p ∈ l1 -> key_class (fst p) <> key_class k) ->
  dict_lookup pykey_eqb k (l1 ++ l2) = dict_lookup pykey_eqb k l2.
Proof.
  induction l1 as [|[k1 v1] l1 IH]; simpl; intros Hne; [reflexivity|].
  rewrite (eqb_ne pykey_eqb key_class pykey_eqb_spec).
  - apply IH. intros p Hp. apply Hne. apply elem_of_cons. now right.
  - apply (Hne (k1, v1)). apply elem_of_cons. now left.
Qed.


(** When the only identifier written under the name [A] is the string
    [A], the record read back under [A] is that of the last record of
    the batch whose identifier is [A]. *)
Lemma written_last old es1 e es2 A :
  NoDup (map fst old) ->
  fst (snd e) = KStr A ->
  (forall e', e' ∈ es1 ++ e :: es2 ->
              key_str (fst (snd e')) = A -> fst (snd e') = KStr A) ->
  (forall e', e' ∈ es2 -> fst (snd e') <> KStr A) ->
  Py.dict_get A
    (written (dict_update pykey_eqb (map snd (es1 ++ e :: es2)) (lift old)))
    = Some (snd (snd e)).
Proof.
  intros Hnd Hk Hnc Hpost.
  set (pairs := map snd (es1 ++ e :: es2)).
  set (d := dict_update pykey_eqb pairs (lift old)).
  assert (Hd : NoDup (classes d)).
  { apply (dict_update_NoDup pykey_eqb key_class pykey_eqb_spec).
    now apply lift_classes_NoDup. }
  assert (Hlook : dict_lookup pykey_eqb (KStr A) d = Some (snd (snd e))).
  { unfold d. rewrite (lookup_update pykey_eqb key_class pykey_eqb_spec).
    unfold pairs. rewrite map_app, rev_app_distr. simpl.
    rewrite <- app_assoc. rewrite lookup_skip.
    - simpl. destruct e as [id [k v]]. simpl in *. subst k.
      now rewrite (eqb_refl pykey_eqb key_class pykey_eqb_spec).
    - intros p (e' & -> & He')%elem_of_rev%elem_of_map Hc.
      apply key_class_str in Hc. now apply (Hpost e'). }
  apply (lookup_elem pykey_eqb key_class pykey_eqb_spec) in Hlook
    as (k' & Hc & Hin).
  apply key_class_str in Hc. subst k'.
  apply (written_unique d (KStr A) _ Hin).
  intros k1 v1 Hin1 Hname. simpl in Hname.
  assert (Hk1 : k1 = KStr A).
  { assert (Hkey : k1 ∈ map fst d) by (apply elem_of_map; now exists (k1, v1)).
    apply (dict_update_keys pykey_eqb) in Hkey as [Hkey|Hkey];
      apply elem_of_map in Hkey as (p & -> & Hp).
    - apply elem_of_map in Hp as (e' & -> & He'). now apply Hnc.
    - destruct p as [k2 v2]. apply lift_elem in Hp as (s & -> & _).
      simpl in *. congruence. }
  subst k1.
  pose proof (elem_lookup_NoDup pykey_eqb key_class pykey_eqb_spec
                _ _ _ Hd Hin) as H1.
  pose proof (elem_lookup_NoDup pykey_eqb key_class pykey_eqb_spec
                _ _ _ Hd Hin1) as H2.
  congruence.
Qed.
Lemma entry_of_inv item e :
  entry_of item = Ok e ->
  Py.subscript item "id" = Ok (fst e) /\
  py_hash (fst e) = Ok (fst (snd e)) /\
  normalize false item = Ok (snd (snd e)).
Proof.
  unfold entry_of.
  destruct (Py.subscript item "id") as [id|x]; simpl; [|discriminate].
  destruct (normalize false item) as [info|x]; simpl; [|discriminate].
  destruct (py_hash id) as [k|x] eqn:Hk; simpl; [|discriminate].
  intros [= <-]. now repeat split.
Qed.
End Overwrite.



(** * Further properties of the code *)

(** ** Bucket names and paths *)

Section Buckets.
Lemma lower_char_idem c : Str.lower_char (Str.lower_char c) = Str.lower_char c.
Proof. destruct c as [[] [] [] [] [] [] [] []]; reflexivity. Qed.

Lemma lower_idem s : Str.lower (Str.lower s) = Str.lower s.
Proof.
  induction s as [|c s IH]; simpl; [reflexivity|].
  now rewrite lower_char_idem, IH.
Qed.

Lemma replace_space_idem s :
  Str.replace_space (Str.replace_space s) = Str.replace_space s.
Proof.
  induction s as [|c s IH]; simpl; [reflexivity|]. rewrite IH. f_equal.
  destruct (Ascii.eqb c " ") eqn:E; [reflexivity | now rewrite E].
Qed.

Lemma lower_replace_space s :
  Str.lower (Str.replace_space s) = Str.replace_space (Str.lower s).
Proof.
  induction s as [|c s IH]; simpl; [reflexivity|]. rewrite IH. f_equal.
  destruct c as [[] [] [] [] [] [] [] []]; reflexivity.
Qed.

Lemma bucket_name_idem key : bucket_name (bucket_name key) = bucket_name key.
Proof.
  unfold bucket_name.
  now rewrite lower_replace_space, lower_idem, replace_space_idem.
Qed.

Lemma bucket_name_lower key : bucket_name (Str.lower key) = bucket_name key.
Proof. unfold bucket_name. now rewrite lower_idem. Qed.

Lemma bucket_name_replace_space key :
  bucket_name (Str.replace_space key) = bucket_name key.
Proof.
  unfold bucket_name. now rewrite lower_replace_space, replace_space_idem.
Qed.

Lemma starts_with_slash_bucket_name key :
  Str.starts_with "/" (bucket_name key) = Str.starts_with "/" key.
Proof.
  destruct key as [|c key]; [reflexivity|]. simpl.
  destruct c as [[] [] [] [] [] [] [] []]; reflexivity.
Qed.

Lemma str_append_assoc a b c :
  String.append a (String.append b c) = String.append (String.append a b) c.
Proof.
  induction a as [|x a IH]; [reflexivity|].
  change (String x (String.append a (String.append b c))
          = String x (String.append (String.append a b) c)).
  now rewrite IH.
Qed.

Lemma path_join_rel a b :
  Str.starts_with "/" b = false ->
  Str.path_join a b =
    String.append a
      (String.append (if String.eqb a "" || Str.ends_with "/" a then "" else "/")
                     b).
Proof.
  intros Hb. unfold Str.path_join. rewrite Hb.
  now destruct (String.eqb a "" || Str.ends_with "/" a).
Qed.

Lemma ends_with_dir (dir name : string) :
  Str.ends_with "/" dir = true ->
  Str.ends_with "/" (String.append dir name) =
    String.eqb name "" || Str.ends_with "/" name.
Proof.
  induction dir as [|c dir IH]; [discriminate|]. intros Hd.
  change (String.append (String c dir) name)
    with (String c (String.append dir name)).
  destruct dir as [|c' dir].
  - simpl in Hd. destruct name as [|x name]; [exact Hd | reflexivity].
  - change (Str.ends_with "/" (String c (String c' dir)))
      with (Str.ends_with "/" (String c' dir)) in Hd.
    change (Str.ends_with "/" (String c (String.append (String c' dir) name)))
      with (Str.ends_with "/" (String.append (String c' dir) name)).
    now apply IH.
Qed.

(** The path of a file in the directory of a bucket under [root]. *)
Lemma bucket_file_path (root name file : string) :
  Str.starts_with "/" name = false ->
  Str.starts_with "/" file = false ->
  root <> "" -> Str.ends_with "/" root = false ->
  Str.path_join (Str.path_join root name) file =
    String.append (String.append root "/")
      (String.append name
         (String.append
            (if String.eqb name "" || Str.ends_with "/" name then "" else "/")
            file)).
Proof.
  intros Hn Hf Hr He.
  rewrite (path_join_rel root name Hn).
  assert (Hr' : String.eqb root "" = false) by now apply String.eqb_neq.
  rewrite Hr', He. simpl orb.
  rewrite str_append_assoc.
  rewrite (path_join_rel _ file Hf).
  assert (Hd : Str.ends_with "/" (String.append root "/") = true).
  { clear -He Hr. induction root as [|c root IH]; [congruence|].
    destruct root as [|c' root]; [reflexivity|].
    change (Str.ends_with "/" (String c' root) = false) in He.
    change (Str.ends_with "/" (String.append (String c' root) "/") = true).
    now apply IH. }
  rewrite (ends_with_dir _ name Hd).
  assert (Hne : String.eqb (String.append (String.append root "/") name) ""
                = false).
  { apply String.eqb_neq. destruct root; [congruence | discriminate]. }
  rewrite Hne. simpl orb. now rewrite <- str_append_assoc.
Qed.

Lemma path_join_abs a b : Str.starts_with "/" b = true -> Str.path_join a b = b.
Proof. intros H. unfold Str.path_join. now rewrite H. Qed.

Lemma prefix_append p s : String.prefix p (String.append p s) = true.
Proof.
  induction p as [|c p IH]; simpl; [now destruct s|].
  destruct (ascii_dec c c); [exact IH | congruence].
Qed.

Lemma prefix_append_l p a b :
  String.prefix p a = true -> String.prefix p (String.append a b) = true.
Proof.
  revert a. induction p as [|c p IH]; intros a; simpl.
  - intros _. now destruct (String.append a b).
  - destruct a as [|c' a]; [discriminate|]. simpl.
    destruct (ascii_dec c c'); [apply IH | discriminate].
Qed.

(** Joining a file name to a directory keeps what the directory starts
    with. *)
Lemma prefix_path_join p a :
  String.prefix p a = true ->
  String.prefix p (Str.path_join a "items_info.json") = true /\
  String.prefix p (Str.path_join a "item_info.json") = true.
Proof.
  intros H. unfold Str.path_join. simpl.
  destruct (String.eqb a "" || Str.ends_with "/" a); split;
    now apply prefix_append_l.
Qed.
End Buckets.

(** X1: the bucket of a query, and of an item, is the same for keys that
    differ in the case of their ASCII letters or in spaces against
    underscores: lower-casing a key, replacing its spaces, or both, does
    not change the file it is stored in. *)
Theorem bucket_ignores_case_and_spaces key :
  query_file (Str.lower key) = query_file key /\
  query_file (Str.replace_space key) = query_file key /\
  query_file (Str.replace_space (Str.lower key)) = query_file key /\
  item_file (Str.lower key) = item_file key /\
  item_file (Str.replace_space key) = item_file key /\
  item_file (Str.replace_space (Str.lower key)) = item_file key.
Proof.
  pose proof (bucket_name_lower key) as Hl.
  pose proof (bucket_name_replace_space key) as Hr.
  pose proof (bucket_name_idem key) as Hi.
  unfold bucket_name in *. unfold query_file, item_file.
  now rewrite Hl, Hr, Hi.
Qed.

(** X2: the path of a bucket file, in full.  A query that starts with
    ["/"] is stored at the absolute path made of its bucket name, outside
    ["queries"].  For every other query the path is ["queries/"], the
    bucket name, ["/"] unless the bucket name is empty or ends with one,
    and ["items_info.json"].  Nothing is done about [".."] in a bucket
    name: the query ["../x"] is stored at
    ["queries/../x/items_info.json"]. *)
Theorem query_file_root query :
  (Str.starts_with "/" query = true ->
   query_file query = Str.path_join (bucket_name query) "items_info.json" /\
   String.prefix "/" (query_file query) = true) /\
  (Str.starts_with "/" query = false ->
   query_file query =
     String.append "queries/"
       (String.append (bucket_name query)
          (String.append
             (if String.eqb (bucket_name query) ""
                 || Str.ends_with "/" (bucket_name query)
              then "" else "/")
             "items_info.json"))) /\
  query_file "../x" = "queries/../x/items_info.json".
Proof.
  pose proof (starts_with_slash_bucket_name query) as Hs.
  unfold query_file. fold (bucket_name query).
  split; [|split; [|reflexivity]]; intros Hq; rewrite Hq in Hs.
  - rewrite (path_join_abs "queries") by exact Hs.
    split; [reflexivity|].
    assert (Hp : String.prefix "/" (bucket_name query) = true).
    { destruct (bucket_name query) as [|c name]; [discriminate|].
      simpl in Hs. apply Ascii.eqb_eq in Hs. subst c. simpl.
      now destruct name. }
    exact (proj1 (prefix_path_join _ _ Hp)).
  - now rewrite bucket_file_path.
Qed.

Lemma query_file_root_witness :
  query_file "/tmp/x" = "/tmp/x/items_info.json" /\
  query_file "Civil War" = "queries/civil_war/items_info.json".
Proof.
  split.
  - exact (proj1 (proj1 (query_file_root "/tmp/x") eq_refl)).
  - exact (proj1 (proj2 (query_file_root "Civil War")) eq_refl).
Defined.

Section ItemKey.
Lemma split_no_sep c s seg : seg ∈ Str.split c s -> has_char c seg = false.
Proof.
  revert seg. induction s as [|c' s IH]; simpl; intros seg Hin.
  - apply list_elem_of_singleton in Hin. now subst seg.
  - destruct (Ascii.eqb c' c) eqn:E.
    + apply elem_of_cons in Hin as [->|Hin]; [reflexivity | now apply IH].
    + destruct (Str.split c s) as [|seg0 segs] eqn:Hs.
      * apply list_elem_of_singleton in Hin. subst seg. simpl. now rewrite E.
      * apply elem_of_cons in Hin as [->|Hin].
        -- simpl. rewrite E. simpl. apply IH. apply elem_of_cons. now left.
        -- apply IH. apply elem_of_cons. now right.
Qed.

Lemma split_not_nil c s : Str.split c s <> [].
Proof.
  destruct s as [|c' s]; simpl; [discriminate|].
  destruct (Ascii.eqb c' c); [discriminate|].
  now destruct (Str.split c s).
Qed.

Lemma last_elem_of {A} (l : list A) (d : A) : l <> [] -> List.last l d ∈ l.
Proof.
  induction l as [|x l IH]; [congruence|]. intros _.
  destruct l as [|y l]; simpl.
  - apply list_elem_of_singleton. reflexivity.
  - apply elem_of_cons. right. apply IH. discriminate.
Qed.

Lemma has_slash_bucket_name key :
  has_char "/" (bucket_name key) = has_char "/" key.
Proof.
  unfold bucket_name. induction key as [|c key IH]; simpl; [reflexivity|].
  rewrite IH. f_equal.
  destruct c as [[] [] [] [] [] [] [] []]; reflexivity.
Qed.

Lemma starts_with_has_char c s :
  Str.starts_with c s = true -> has_char c s = true.
Proof. destruct s as [|c' s]; simpl; [discriminate|]. now intros ->. Qed.

Lemma ends_with_has_char c s :
  Str.ends_with c s = true -> has_char c s = true.
Proof.
  induction s as [|c' s IH]; [discriminate|].
  destruct s as [|c2 s].
  - simpl. now intros ->.
  - change (Str.ends_with c (String c' (String c2 s)))
      with (Str.ends_with c (String c2 s)).
    intros H. change (Ascii.eqb c' c || has_char c (String c2 s) = true).
    rewrite (IH H). apply orb_true_r.
Qed.

Lemma contains_has_h s : Str.contains "http" s = true -> has_char "h" s = true.
Proof.
  induction s as [|c s IH]; [discriminate|].
  change (String.prefix "http" (String c s) || Str.contains "http" s = true
          -> Ascii.eqb c "h" || has_char "h" s = true).
  intros [Hp|Hc]%orb_true_iff.
  - destruct c as [[] [] [] [] [] [] [] []]; try reflexivity;
      cbv in Hp; discriminate Hp.
  - rewrite (IH Hc). apply orb_true_r.
Qed.

Lemma has_char_nonempty x s : has_char x s = true -> s <> "".
Proof. now destruct s. Qed.

Lemma lstrip_has_char x c s :
  x <> c -> has_char x s = true -> has_char x (Str.lstrip c s) = true.
Proof.
  intros Hne. induction s as [|c' s IH]; [discriminate|]. simpl.
  destruct (Ascii.eqb c' c) eqn:E; [|now intros H].
  apply Ascii.eqb_eq in E. subst c'.
  assert (Ascii.eqb c x = false) as -> by (apply Ascii.eqb_neq; congruence).
  exact IH.
Qed.

Lemma rstrip_has_char x c s :
  x <> c -> has_char x s = true -> has_char x (Str.rstrip c s) = true.
Proof.
  intros Hne. induction s as [|c' s IH]; [discriminate|]. simpl.
  intros [Hx|Hs]%orb_true_iff.
  - apply Ascii.eqb_eq in Hx. subst c'.
    assert (Ascii.eqb x c = false) as -> by now apply Ascii.eqb_neq.
    simpl. now rewrite Ascii.eqb_refl.
  - specialize (IH Hs).
    assert (String.eqb (Str.rstrip c s) "" = false) as ->.
    { apply String.eqb_neq. now apply (has_char_nonempty x). }
    rewrite andb_false_r. simpl. rewrite IH. apply orb_true_r.
Qed.

Lemma rstrip_not_ends c s : Str.ends_with c (Str.rstrip c s) = false.
Proof.
  induction s as [|c' s IH]; [reflexivity|]. simpl.
  destruct (Str.rstrip c s) as [|c2 r] eqn:Hr.
  - simpl. destruct (Ascii.eqb c' c) eqn:E; [reflexivity|]. simpl. exact E.
  - rewrite andb_false_r. exact IH.
Qed.

Lemma last_split_empty c s :
  List.last (Str.split c s) "" = "" -> s = "" \/ Str.ends_with c s = true.
Proof.
  induction s as [|c' s IH]; [now left|]. simpl. intros H. right.
  pose proof (split_not_nil c s) as Hnil.
  destruct (Ascii.eqb c' c) eqn:E.
  - destruct (Str.split c s) as [|seg segs] eqn:Hs; [congruence|].
    destruct (IH H) as [->|He]; [reflexivity|].
    destruct s; [discriminate | exact He].
  - destruct (Str.split c s) as [|seg [|seg' segs]] eqn:Hs;
      [congruence | discriminate |].
    destruct (IH H) as [->|He]; [discriminate|].
    destruct s; [discriminate | exact He].
Qed.

Lemma bucket_name_nonempty key : key <> "" -> bucket_name key <> "".
Proof. now destruct key. Qed.
End ItemKey.

(** X3: the key and the file of an item.  An identifier that contains
    ["http"] is reduced to its last path segment: the key is not empty and
    has no ["/"], and the file is ["items/"], the bucket name of the key
    and ["/item_info.json"].  An identifier without ["http"] is used as
    it is.  Nothing is done about a segment [".."]: the identifier
    ["http://a/.."] has the key [".."], whose file is
    ["items/../item_info.json"]. *)
Theorem item_key_of_url item_id :
  (Str.contains "http" item_id = true ->
   item_key item_id <> "" /\
   has_char "/" (item_key item_id) = false /\
   item_file (item_key item_id) =
     String.append "items/"
       (String.append (bucket_name (item_key item_id)) "/item_info.json")) /\
  (Str.contains "http" item_id = false -> item_key item_id = item_id) /\
  item_key "http://a/.." = ".." /\
  item_file ".." = "items/../item_info.json".
Proof.
  split; [|split; [|split; reflexivity]]; unfold item_key; intros Hc;
    rewrite Hc; simpl negb; cbv iota; [|reflexivity].
  set (stripped := Str.strip "/" item_id).
  set (key := List.last (Str.split "/" stripped) "").
  assert (Hkey : has_char "/" key = false).
  { apply (split_no_sep "/" stripped). apply last_elem_of, split_not_nil. }
  assert (Hne : key <> "").
  { intros Hk. apply last_split_empty in Hk as [Hs|He].
    - apply (has_char_nonempty "h" stripped); [|exact Hs].
      apply rstrip_has_char; [discriminate|].
      apply lstrip_has_char; [discriminate|].
      now apply contains_has_h.
    - unfold stripped, Str.strip in He. now rewrite rstrip_not_ends in He. }
  split; [exact Hne | split; [exact Hkey|]].
  assert (Hname : has_char "/" (bucket_name key) = false)
    by now rewrite has_slash_bucket_name.
  unfold item_file. fold (bucket_name key).
  rewrite bucket_file_path; try reflexivity; try discriminate.
  - assert (String.eqb (bucket_name key) "" = false) as ->.
    { apply String.eqb_neq. now apply bucket_name_nonempty. }
    destruct (Str.ends_with "/" (bucket_name key)) eqn:He; [|reflexivity].
    apply ends_with_has_char in He. congruence.
  - destruct (Str.starts_with "/" (bucket_name key)) eqn:Hs; [|reflexivity].
    apply starts_with_has_char in Hs. congruence.
Qed.

Lemma item_key_of_url_witness :
  item_file (item_key "https://www.loc.gov/item/2001 A/")
    = "items/2001_a/item_info.json" /\
  item_key "2001/a" = "2001/a".
Proof.
  split.
  - exact (proj2 (proj2 (proj1 (item_key_of_url
                                  "https://www.loc.gov/item/2001 A/")
                           eq_refl))).
  - exact (proj1 (proj2 (item_key_of_url "2001/a")) eq_refl).
Defined.

(** ** Calling [get_item_details] again *)

(** X4: [get_item_details] is idempotent: called again with the same
    identifier and the same response, it returns what it returned and
    leaves the file system as the first call left it. *)
Theorem get_item_details_idempotent item_id response fs :
  get_item_details item_id response (get_item_details item_id response fs).2 =
  get_item_details item_id response fs.
Proof.
  rewrite !get_item_details_unfold.
  destruct (Py.subscript response "item" ≫= normalize true) as [rec|e]; simpl;
    [|reflexivity].
  now rewrite insert_insert_eq.
Qed.

(** ** What [process_results] returns *)

Section Returned.
Lemma for_each_ids items ids0 obj ids obj' :
  for_each items (ids0, obj) = Ok (ids, obj') ->
  exists ids1,
    ids = ids0 ++ ids1 /\
    Forall2 (fun item id => Py.subscript item "id" = Ok id) items ids1.
Proof.
  revert ids0 obj. induction items as [|item items IH]; intros ids0 obj; simpl.
  - intros [= <- <-]. exists []. split; [now rewrite app_nil_r | constructor].
  - unfold loop_body. simpl.
    destruct (Py.subscript item "id") as [id|e] eqn:Hid; simpl; [|discriminate].
    destruct (normalize false item) as [info|e]; simpl; [|discriminate].
    destruct (py_setitem obj id info) as [obj1|e]; simpl; [|discriminate].
    intros Hrest. destruct (IH _ _ Hrest) as (ids1 & -> & Hall).
    exists (id :: ids1). split; [now rewrite <- app_assoc | now constructor].
Qed.

Lemma lift_names kvs : names (lift kvs) = kvs.
Proof.
  induction kvs as [|[k v] kvs IH]; simpl; [reflexivity | now rewrite IH].
Qed.

(** What [json.load] returned is written back as it was read. *)
Lemma dump_of_json v : unique_keys (Some (Valid v)) -> json_dump (of_json v) = v.
Proof.
  destruct v; simpl; try reflexivity. intros Hnd.
  rewrite lift_names.
  now rewrite (dict_of_pairs_id String.eqb (fun s => s) str_eqb_spec).
Qed.

(** With [str] identifiers, what the loop returns is what a later load
    of the file it writes gives. *)
Lemma run_loop_dump_load file results ids obj :
  unique_keys file ->
  ids_are_str results = true ->
  run_loop file results = Ok (ids, obj) ->
  of_json (json_dump obj) = obj.
Proof.
  intros Hu Hstr. unfold run_loop, ids_are_str in *.
  destruct (load_or_empty file) as [obj0|e] eqn:Hload; simpl; [|discriminate].
  destruct (Py.iter results) as [items|e]; simpl; [|discriminate].
  destruct (load_or_empty_shape _ _ Hu Hload)
    as [(d0 & -> & Hs0 & Hnd0)|[Hnot Hrt]].
  - rewrite for_each_dict.
    destruct (entries_of items) as [es|e] eqn:Hes; simpl; [|discriminate].
    intros [= <- <-]. apply dump_load_dict.
    + apply dict_update_str_keys; [|exact Hs0].
      intros e (e' & -> & He')%elem_of_map.
      apply (entries_of_str items es Hstr Hes e' He').
    + now apply (dict_update_NoDup pykey_eqb key_class pykey_eqb_spec).
  - intros Hfor.
    pose proof (for_each_not_dict _ _ _ _ Hnot Hstr Hfor) as ->.
    simpl in Hfor. now injection Hfor as <- <-.
Qed.
End Returned.

(** X7: the identifiers [process_results] returns are those of the records
    of the batch, one for each record and in the order of the batch,
    repetitions included: not the keys of the merged mapping. *)
Theorem process_results_ids query results fs ids obj fs' :
  process_results query results fs = (Ok (ids, obj), fs') ->
  exists items,
    Py.iter results = Ok items /\
    Forall2 (fun item id => Py.subscript item "id" = Ok id) items ids.
Proof.
  rewrite process_results_unfold. unfold run_loop.
  destruct (load_or_empty_ok (fs !! query_file query)) as [obj0 ->]. simpl.
  destruct (Py.iter results) as [items|e]; simpl; [|discriminate].
  destruct (for_each items ([], obj0)) as [[ids' obj']|e] eqn:Hfor;
    [|discriminate].
  intros [= <- <- <-].
  destruct (for_each_ids _ _ _ _ _ Hfor) as (ids1 & -> & Hall).
  now exists items.
Qed.

Lemma process_results_ids_witness :
  exists items,
    Py.iter (JList [sample_record; sample_record]) = Ok items /\
    Forall2 (fun item id => Py.subscript item "id" = Ok id) items
      [JStr "http://www.loc.gov/item/1/"; JStr "http://www.loc.gov/item/1/"].
Proof.
  eapply (process_results_ids "civil war"
            (JList [sample_record; sample_record]) sample_fs).
  apply process_results_run. vm_compute. reflexivity.
Defined.

(** X9: when the identifiers of the batch are strings, the mapping
    [process_results] returns is the one it has written: loading the
    bucket file after the call gives the returned object. *)
Theorem process_results_returns_written query results fs ids obj fs' :
  unique_keys (fs !! query_file query) ->
  ids_are_str results = true ->
  process_results query results fs = (Ok (ids, obj), fs') ->
  load_or_empty (fs' !! query_file query) = Ok obj.
Proof.
  intros Hu Hstr. rewrite process_results_unfold.
  destruct (run_loop _ results) as [[ids' obj']|e] eqn:Hrun; [|discriminate].
  intros [= <- <- <-]. rewrite lookup_insert_eq.
  cbn [load_or_empty json_load]. f_equal.
  exact (run_loop_dump_load _ _ _ _ Hu Hstr Hrun).
Qed.

Lemma process_results_returns_written_witness :
  load_or_empty
    ((process_results "civil war" sample_batch sample_fs).2
       !! query_file "civil war")
  = (process_results "civil war" sample_batch sample_fs).1 ≫=
      (fun r => Ok r.2).
Proof.
  erewrite (process_results_returns_written "civil war" sample_batch sample_fs).
  - reflexivity.
  - vm_compute. refine (bool_decide_unpack _ _). vm_compute. exact I.
  - reflexivity.
  - apply process_results_run. vm_compute. reflexivity.
Defined.

(** ** The normaliser, case by case *)

(** X10: every record normalisation yields has the same keys in the same
    order, whatever the raw record holds: eight on the search path, and
    ["date"] as a ninth, after ["description"], for a single item. *)
Theorem normalize_schema b item rec :
  normalize b item = Ok rec ->
  exists kvs,
    rec = JObj kvs /\
    map fst kvs =
      ["title"; "contributor[s]"; "description"]
      ++ (if b then ["date"] else [])
      ++ ["link"; "thumbnail"; "digitized"; "genre"; "subjects"].
Proof.
  destruct item as [| | | | |fields]; simpl; try discriminate.
  intros (cs & th & _ & _ & ->)%normalize_ok_inv.
  eexists. split; [reflexivity|]. now destruct b.
Qed.

Lemma normalize_schema_witness :
  exists kvs,
    normalize true sample_record = Ok (JObj kvs) /\
    map fst kvs =
      ["title"; "contributor[s]"; "description"; "date"; "link"; "thumbnail";
       "digitized"; "genre"; "subjects"].
Proof.
  destruct (normalize_schema true sample_record _ eq_refl) as (kvs & Hrec & Hk).
  exists kvs. split; [now rewrite <- Hrec | exact Hk].
Defined.

(** X11: the thumbnail, by the shape of ["image_url"]: the first element
    of a non-empty list; the first character of a non-empty string; the
    value itself when it is an empty list, string or object; [KeyError]
    on a non-empty object; [TypeError] on [null], a boolean or a number,
    and when the field is absent. *)
Theorem thumbnail_by_shape (item : list (string * json)) :
  (forall x l, Py.dict_get "image_url" item = Some (JList (x :: l)) ->
               thumbnail_of item = Ok x) /\
  (forall c s, Py.dict_get "image_url" item = Some (JStr (String c s)) ->
               thumbnail_of item = Ok (JStr (String c EmptyString))) /\
  (forall v, Py.dict_get "image_url" item = Some v ->
             v = JList [] \/ v = JStr "" \/ v = JObj [] ->
             thumbnail_of item = Ok v) /\
  (forall kv kvs, Py.dict_get "image_url" item = Some (JObj (kv :: kvs)) ->
                  thumbnail_of item = Raise KeyError) /\
  (forall v, Py.dict_get "image_url" item = Some v ->
             Py.len v = Raise TypeError ->
             thumbnail_of item = Raise TypeError) /\
  (Py.dict_get "image_url" item = None ->
   thumbnail_of item = Raise TypeError).
Proof.
  unfold thumbnail_of, Py.get_none, Py.get.
  split; [|split; [|split; [|split; [|split]]]].
  - intros x l H. now rewrite H.
  - intros c s H. now rewrite H.
  - intros v H [->|[->| ->]]; now rewrite H.
  - intros kv kvs H. now rewrite H.
  - intros v H Hlen. rewrite H, Hlen. reflexivity.
  - intros H. now rewrite H.
Qed.

Lemma thumbnail_by_shape_witness :
  thumbnail_of [("image_url", JStr "http://t/1.jpg")] = Ok (JStr "h").
Proof.
  exact (proj1 (proj2 (thumbnail_by_shape [("image_url", JStr "http://t/1.jpg")]))
           _ _ eq_refl).
Defined.

(** X12: normalisation never raises [IndexError]: the first element is
    taken only of a value whose length is positive.  It raises
    [AttributeError] exactly when the raw record is not an object,
    [KeyError] only when ["image_url"] is a non-empty object, and
    otherwise [TypeError]. *)
Theorem normalize_exceptions b item :
  normalize b item <> Raise IndexError /\
  (normalize b item = Raise AttributeError <->
   forall fields, item <> JObj fields) /\
  (normalize b item = Raise KeyError ->
   exists fields kv kvs,
     item = JObj fields /\
     Py.dict_get "image_url" fields = Some (JObj (kv :: kvs))) /\
  (forall e, normalize b item = Raise e ->
             e = TypeError \/ e = KeyError \/ e = AttributeError).
Proof.
  destruct item as [| | | | |fields]; simpl;
    try (split; [discriminate|];
         split; [split; [discriminate | reflexivity]|];
         split; [discriminate|]; intros e [= <-]; tauto).
  assert (Hth : forall e, thumbnail_of fields = Raise e ->
            e = TypeError \/
            (e = KeyError /\ exists kv kvs,
               Py.dict_get "image_url" fields = Some (JObj (kv :: kvs)))).
  { intros e. unfold thumbnail_of, Py.get_none, Py.get.
    destruct (Py.dict_get "image_url" fields) as [[| | |[|]|[|]|[|]]|];
      simpl; try discriminate; intros [= <-]; eauto. }
  assert (Hn : forall e, normalize_fields b fields = Raise e ->
            e = TypeError \/
            (e = KeyError /\ exists kv kvs,
               Py.dict_get "image_url" fields = Some (JObj (kv :: kvs)))).
  { intros e. unfold normalize_fields.
    destruct (contributors_of fields) as [cs|e'] eqn:Hcs; simpl.
    - destruct (thumbnail_of fields) as [th|e'] eqn:Hth'; simpl;
        [discriminate|].
      intros [= <-]. now apply Hth.
    - intros [= <-]. left. now apply contributors_of_exn in Hcs. }
  split; [|split; [|split]].
  - intros H. destruct (Hn _ H) as [?|[? _]]; discriminate.
  - split.
    + intros H. destruct (Hn _ H) as [?|[? _]]; discriminate.
    + intros H. now destruct (H fields).
  - intros H. destruct (Hn _ H) as [?|[_ (kv & kvs & Him)]]; [discriminate|].
    now exists fields, kv, kvs.
  - intros e H. destruct (Hn _ H) as [?|[? _]]; tauto.
Qed.

Lemma normalize_exceptions_witness :
  exists fields kv kvs,
    JObj [("image_url", JObj [("full", JStr "u")])] = JObj fields /\
    Py.dict_get "image_url" fields = Some (JObj (kv :: kvs)).
Proof.
  apply (proj1 (proj2 (proj2 (normalize_exceptions false
           (JObj [("image_url", JObj [("full", JStr "u")])]))))).
  reflexivity.
Defined.

(** ** More on the merge *)

Section MergeMore.
Lemma last_occurrence {A} (P : A -> Prop) `{!forall x, Decision (P x)}
    (l : list A) :
  (exists x, x ∈ l /\ P x) ->
  exists l1 x l2, l = l1 ++ x :: l2 /\ P x /\ forall y, y ∈ l2 -> ~ P y.
Proof.
  induction l as [|a l IH]; intros (x & Hin & Hx).
  - now apply elem_of_nil in Hin.
  - destruct (decide (Exists P l)) as [Hex|Hnex].
    + apply Exists_exists in Hex.
      destruct (IH Hex) as (l1 & y & l2 & -> & Hy & Hl2).
      now exists (a :: l1), y, l2.
    + assert (Hl : forall y, y ∈ l -> ~ P y).
      { intros y Hy HP. apply Hnex, Exists_exists. eauto. }
      apply elem_of_cons in Hin as [->|Hin]; [|now destruct (Hl x Hin)].
      now exists [], a, l.
Qed.

Lemma normalize_link b item id rec :
  Py.subscript item "id" = Ok id ->
  normalize b item = Ok rec ->
  field "link" rec = Some id.
Proof.
  destruct item as [| | | | |fields]; simpl; try discriminate.
  destruct (Py.dict_get "id" fields) as [v|] eqn:Hid; [|discriminate].
  intros [= ->] (cs & th & _ & _ & ->)%normalize_ok_inv.
  unfold item_info_of, Py.get. rewrite Hid. now destruct b.
Qed.

(** The successful runs of [process_results] on a batch of [str]
    identifiers, of which there is one at least. *)
Lemma process_results_str query results fs ids obj fs' s :
  unique_keys (fs !! query_file query) ->
  ids_are_str results = true ->
  process_results query results fs = (Ok (ids, obj), fs') ->
  JStr s ∈ ids ->
  exists old items es,
    NoDup (map fst old) /\
    Py.iter results = Ok items /\ entries_of items = Ok es /\
    ids = map fst es /\
    (forall e, e ∈ es -> exists s', fst (snd e) = KStr s') /\
    fs' = <[query_file query :=
              Valid (JObj (written (dict_update pykey_eqb (map snd es)
                                      (lift old))))]> fs.
Proof.
  intros Hu Hstr Hrun Hin.
  pose proof Hrun as Hrun'. rewrite process_results_unfold in Hrun'.
  unfold run_loop, ids_are_str in *.
  destruct (load_or_empty (fs !! query_file query)) as [obj0|e] eqn:Hload;
    simpl in Hrun'; [|discriminate].
  destruct (Py.iter results) as [items|e] eqn:Hit; simpl in Hrun';
    [|discriminate].
  destruct (load_or_empty_shape _ _ Hu Hload)
    as [(d0 & -> & Hs0 & Hnd0)|[Hnot _]].
  - rewrite <- (names_lift d0 Hs0) in Hload.
    destruct (process_results_dict _ _ _ _ _ _ _ Hload Hrun)
      as (items' & es & Hit' & Hes & -> & -> & ->).
    assert (items' = items) as -> by congruence.
    exists (names d0), items, es.
    split; [now apply names_NoDup|].
    repeat split; try assumption.
    exact (entries_of_str items es Hstr Hes).
  - exfalso.
    destruct (for_each items ([], obj0)) as [[ids' obj']|e] eqn:Hfor;
      [|discriminate].
    pose proof (for_each_not_dict _ _ _ _ Hnot Hstr Hfor) as ->.
    simpl in Hfor. injection Hfor as <- <-.
    injection Hrun' as <- _ _. now apply elem_of_nil in Hin.
Qed.
End MergeMore.

(** X13: after a merge of a batch whose identifiers are strings, each
    record of the batch is stored under its own link: the entry under an
    identifier of the batch has that identifier as its ["link"]. *)
Theorem merged_key_is_link query results fs ids obj fs' s :
  unique_keys (fs !! query_file query) ->
  ids_are_str results = true ->
  process_results query results fs = (Ok (ids, obj), fs') ->
  JStr s ∈ ids ->
  exists new rec,
    mapping_at (query_file query) fs' = Some new /\
    Py.dict_get s new = Some rec /\
    field "link" rec = Some (JStr s).
Proof.
  intros Hu Hstr Hrun Hin.
  destruct (process_results_str _ _ _ _ _ _ _ Hu Hstr Hrun Hin)
    as (old & items & es & Hnd & Hit & Hes & -> & Hkeys & ->).
  assert (Hex : exists e, e ∈ es /\ key_class (fst (snd e)) = key_class (KStr s)).
  { apply elem_of_map in Hin as (e & HeA & He). exists e. split; [exact He|].
    destruct (entries_of_elem _ _ _ Hes He) as [Hh _].
    rewrite <- HeA in Hh. simpl in Hh. injection Hh as <-. reflexivity. }
  destruct (last_occurrence _ es Hex) as (es1 & e & es2 & -> & He & Hpost).
  apply key_class_str in He.
  assert (Hine : e ∈ es1 ++ e :: es2).
  { apply elem_of_app. right. apply elem_of_cons. now left. }
  destruct (entries_of_elem _ _ _ Hes Hine) as (Hh & item & _ & Hid & Hn).
  rewrite He in Hh. apply py_hash_str in Hh. rewrite Hh in Hid.
  eexists. exists (snd (snd e)). split; [|split].
  - unfold mapping_at. now rewrite lookup_insert_eq.
  - apply written_last; [exact Hnd | exact He | |].
    + intros e' He' Hname. destruct (Hkeys e' He') as [s' Hs'].
      rewrite Hs' in *. simpl in Hname. now subst s'.
    + intros e' He' Hk'. apply (Hpost e' He'). now rewrite Hk'.
  - exact (normalize_link false item _ _ Hid Hn).
Qed.

Lemma merged_key_is_link_witness :
  exists new rec,
    mapping_at (query_file "civil war")
      (process_results "civil war" sample_batch stale_fs).2 = Some new /\
    Py.dict_get "http://www.loc.gov/item/1/" new = Some rec /\
    field "link" rec = Some (JStr "http://www.loc.gov/item/1/").
Proof.
  eapply (merged_key_is_link "civil war" sample_batch stale_fs).
  - vm_compute. apply NoDup_singleton.
  - reflexivity.
  - apply process_results_run. vm_compute. reflexivity.
  - apply list_elem_of_singleton. reflexivity.
Defined.

(** X14: a merge never drops a key: every key of the mapping the bucket
    held is a key of the mapping written, whatever the batch. *)
Theorem merge_keeps_keys query results fs old ids obj fs' :
  mapping_at (query_file query) fs = Some old ->
  process_results query results fs = (Ok (ids, obj), fs') ->
  exists new,
    mapping_at (query_file query) fs' = Some new /\
    forall k, is_Some (Py.dict_get k old) -> is_Some (Py.dict_get k new).
Proof.
  intros Hmap%mapping_at_inv Hrun.
  assert (Hload : load_or_empty (fs !! query_file query)
                  = Ok (of_json (JObj old))) by now rewrite Hmap.
  destruct (process_results_dict _ _ _ _ _ _ _ Hload Hrun)
    as (items & es & Hit & Hes & -> & -> & ->).
  eexists. split; [unfold mapping_at; now rewrite lookup_insert_eq|].
  intros k [v Hv%dict_get_elem].
  assert (Hc : key_class (KStr k) ∈
               classes (dict_update pykey_eqb (map snd es) (lift old))).
  { apply (dict_update_classes pykey_eqb key_class pykey_eqb_spec). right.
    apply elem_of_map. exists (KStr k, v). split; [reflexivity|].
    apply lift_elem. eauto. }
  apply elem_of_map in Hc as ([k' v'] & Hc & Hin). simpl in Hc.
  symmetry in Hc. apply key_class_str in Hc. subst k'.
  apply (written_some _ (KStr k) v' Hin).
Qed.

Lemma merge_keeps_keys_witness :
  exists new,
    mapping_at (query_file "civil war")
      (process_results "civil war" sample_batch sample_fs).2 = Some new /\
    is_Some (Py.dict_get "http://www.loc.gov/item/2/" new).
Proof.
  edestruct (merge_keeps_keys "civil war" sample_batch sample_fs sample_mapping)
    as (new & Hnew & Hkeys).
  - reflexivity.
  - apply process_results_run. vm_compute. reflexivity.
  - exists new. split; [exact Hnew|]. apply Hkeys. vm_compute. eauto.
Defined.

(** ** The search tools *)

(** X15: [search_items] and [format_search] share the bucket of the
    query: after [search_items], a [format_search] with the same query
    that gets the same response returns what [search_items] returned and
    changes no file, whatever its format, provided the identifiers in the
    response are strings. *)
Theorem format_search_after_search_items query format n1 n2 response fs :
  unique_keys (fs !! query_file query) ->
  (forall results, Py.subscript response "results" = Ok results ->
                   ids_are_str results = true) ->
  format_search query format n2 response
    (search_items query n1 response fs).2
  = search_items query n1 response fs.
Proof.
  intros Hu Hstr. unfold format_search, search_items.
  destruct (Py.subscript response "results") as [results|e]; [|reflexivity].
  specialize (Hstr results eq_refl).
  rewrite (process_results_unfold query results fs).
  destruct (run_loop (fs !! query_file query) results) as [[ids obj]|e] eqn:Hrun;
    simpl.
  - rewrite process_results_unfold, lookup_insert_eq.
    rewrite (run_loop_again _ _ _ _ Hu Hstr Hrun).
    now rewrite insert_insert_eq.
  - now rewrite process_results_unfold, Hrun.
Qed.

Lemma format_search_after_search_items_witness :
  format_search "civil war" "maps" 5 (JObj [("results", sample_batch)])
    (search_items "civil war" 5 (JObj [("results", sample_batch)]) sample_fs).2
  = search_items "civil war" 5 (JObj [("results", sample_batch)]) sample_fs.
Proof.
  apply format_search_after_search_items.
  - vm_compute. refine (bool_decide_unpack _ _). vm_compute. exact I.
  - now intros results [= <-].
Defined.

(** X16: a bucket file that parses to something other than an object is
    not recovered from: with it, every batch that has a record, and
    string identifiers, makes [process_results] raise and write nothing. *)
Theorem process_results_on_non_object query results item items v fs :
  fs !! query_file query = Some (Valid v) ->
  (forall kvs, v <> JObj kvs) ->
  Py.iter results = Ok (item :: items) ->
  ids_are_str results = true ->
  exists e, process_results query results fs = (Raise e, fs).
Proof.
  intros Hv Hnot Hit Hstr. rewrite process_results_unfold.
  unfold run_loop, ids_are_str in *. rewrite Hv, Hit in *.
  change (load_or_empty (Some (Valid v))) with (Ok (of_json v)).
  cbn [mbind result_bind].
  destruct (for_each (item :: items) ([], of_json v)) as [st|e] eqn:Hfor;
    [|eauto].
  exfalso.
  assert (Hnd : forall d, of_json v <> PDict d).
  { destruct v; simpl; try discriminate. now destruct (Hnot kvs). }
  now pose proof (for_each_not_dict _ _ _ _ Hnd Hstr Hfor).
Qed.

Lemma process_results_on_non_object_witness :
  exists e,
    process_results "civil war" sample_batch
      {[ query_file "civil war" := Valid (JList []) ]}
    = (Raise e, {[ query_file "civil war" := Valid (JList []) ]}).
Proof.
  apply (process_results_on_non_object "civil war" sample_batch
           sample_record [] (JList [])); try reflexivity.
  discriminate.
Defined.

(** X17: the results must be a list: when they are anything else and not
    empty, [process_results] raises [TypeError] and writes nothing, be it
    at the [for] (a number, a boolean, [null]) or at [item['id']] on the
    first key of an object or the first character of a string. *)
Theorem process_results_not_a_list query results fs :
  (forall l, results <> JList l) ->
  Py.iter results <> Ok [] ->
  process_results query results fs = (Raise TypeError, fs).
Proof.
  intros Hnl Hne. rewrite process_results_unfold. unfold run_loop.
  destruct (load_or_empty_ok (fs !! query_file query)) as [obj ->].
  destruct results as [| | |s|l|kvs]; simpl in *; try reflexivity.
  - destruct s; [now destruct Hne | reflexivity].
  - now destruct (Hnl l).
  - destruct kvs; [now destruct Hne | reflexivity].
Qed.

Lemma process_results_not_a_list_witness :
  process_results "civil war" (JObj [("results", sample_batch)]) sample_fs
  = (Raise TypeError, sample_fs).
Proof.
  apply process_results_not_a_list; discriminate.
Defined.

(** ** Query buckets and item buckets *)

Section Disjoint.
Lemma str_length_append a b :
  String.length (String.append a b) = (String.length a + String.length b)%nat.
Proof. induction a as [|c a IH]; simpl; [reflexivity | now rewrite IH]. Qed.

Lemma path_join_file a f :
  Str.starts_with "/" f = false ->
  exists x, Str.path_join a f = String.append x f.
Proof.
  intros Hf. unfold Str.path_join. rewrite Hf.
  destruct (String.eqb a "" || Str.ends_with "/" a).
  - now exists a.
  - exists (String.append a "/"). apply str_append_assoc.
Qed.

Lemma file_names_differ x y :
  String.append x "items_info.json" <> String.append y "item_info.json".
Proof.
  revert y. induction x as [|c x IH]; intros y H.
  - destruct y as [|c1 [|c2 y]]; simpl in H; try discriminate.
    injection H as _ _ H. apply (f_equal String.length) in H.
    rewrite str_length_append in H. simpl in H. lia.
  - destruct y as [|c' y]; simpl in H.
    + apply (f_equal String.length) in H. simpl in H.
      rewrite str_length_append in H. simpl in H. lia.
    + injection H as _ H. now apply IH in H.
Qed.

Lemma query_file_not_item_file query key : query_file query <> item_file key.
Proof.
  unfold query_file, item_file.
  destruct (path_join_file
              (Str.path_join "queries" (Str.replace_space (Str.lower query)))
              "items_info.json" eq_refl) as [x ->].
  destruct (path_join_file
              (Str.path_join "items" (Str.replace_space (Str.lower key)))
              "item_info.json" eq_refl) as [y ->].
  apply file_names_differ.
Qed.
End Disjoint.

(** X18: searches and item lookups never share a file: the bucket file of
    a query is never the file of an item, so [get_item_details] leaves
    every query bucket as it is, and [process_results] every item file. *)
Theorem query_and_item_buckets_disjoint query results item_id response key fs :
  query_file query <> item_file key /\
  (get_item_details item_id response fs).2 !! query_file query
    = fs !! query_file query /\
  (process_results query results fs).2 !! item_file key = fs !! item_file key.
Proof.
  split; [apply query_file_not_item_file | split].
  - rewrite get_item_details_unfold.
    destruct (Py.subscript response "item" ≫= normalize true) as [rec|e];
      simpl; [|reflexivity].
    rewrite lookup_insert_ne; [reflexivity|].
    intros H. symmetry in H. now apply query_file_not_item_file in H.
  - rewrite process_results_unfold.
    destruct (run_loop _ results) as [[ids obj]|e]; simpl; [|reflexivity].
    rewrite lookup_insert_ne; [reflexivity|].
    apply query_file_not_item_file.
Qed.

(** ** The order of the mapping *)

Section Order.
Context {K V : Type} (eqb : K -> K -> bool).

Lemma dict_set_keys_app k v (d : list (K * V)) :
  exists extra,
    map fst (dict_set eqb k v d) = map fst d ++ extra /\
    forall k', k' ∈ extra -> k' = k.
Proof.
  induction d as [|[k0 v0] d (extra & IH & Hex)]; simpl.
  - exists [k]. split; [reflexivity|].
    now intros k' ->%list_elem_of_singleton.
  - destruct (eqb k0 k); simpl.
    + exists []. split; [now rewrite app_nil_r|].
      intros k' Hk'. now apply elem_of_nil in Hk'.
    + exists extra. now rewrite IH.
Qed.

Lemma dict_update_keys_app (l d : list (K * V)) :
  exists extra,
    map fst (dict_update eqb l d) = map fst d ++ extra /\
    forall k', k' ∈ extra -> k' ∈ map fst l.
Proof.
  revert d. induction l as [|[k v] l IH]; intros d.
  - exists []. split; [now rewrite app_nil_r|].
    intros k' Hk'. now apply elem_of_nil in Hk'.
  - unfold dict_update in *. simpl.
    destruct (IH (dict_set eqb k v d)) as (extra2 & -> & H2).
    destruct (dict_set_keys_app k v d) as (extra1 & -> & H1).
    exists (extra1 ++ extra2). split; [now rewrite app_assoc|].
    intros k' [Hk'|Hk']%elem_of_app; apply elem_of_cons.
    + left. now apply H1.
    + right. now apply H2.
Qed.
End Order.

Lemma names_keys_lift (kvs : list (string * json)) :
  map key_str (map fst (lift kvs)) = map fst kvs.
Proof.
  induction kvs as [|[k v] kvs IH]; simpl; [reflexivity | now rewrite IH].
Qed.

Lemma names_keys (d : list (pykey * json)) :
  map fst (names d) = map key_str (map fst d).
Proof.
  induction d as [|[k v] d IH]; simpl; [reflexivity | now rewrite IH].
Qed.

(** X19: a merge of a batch whose identifiers are strings keeps the keys
    of the mapping in their places and appends the new ones: the keys
    written are the former keys, in their order, followed by identifiers
    of the batch, and no key is written twice. *)
Theorem merge_appends_keys query results fs old ids obj fs' :
  mapping_at (query_file query) fs = Some old ->
  NoDup (map fst old) ->
  ids_are_str results = true ->
  process_results query results fs = (Ok (ids, obj), fs') ->
  exists new added,
    mapping_at (query_file query) fs' = Some new /\
    map fst new = map fst old ++ added /\
    NoDup (map fst new) /\
    forall k, k ∈ added -> JStr k ∈ ids.
Proof.
  intros Hmap%mapping_at_inv Hnd Hstr Hrun.
  assert (Hload : load_or_empty (fs !! query_file query)
                  = Ok (of_json (JObj old))) by now rewrite Hmap.
  destruct (process_results_dict _ _ _ _ _ _ _ Hload Hrun)
    as (items & es & Hit & Hes & -> & -> & ->).
  unfold ids_are_str in Hstr. rewrite Hit in Hstr.
  pose proof (entries_of_str items es Hstr Hes) as Hkeys.
  set (d := dict_update pykey_eqb (map snd es) (lift old)).
  assert (Hsk : str_keys d).
  { apply dict_update_str_keys; [|apply lift_str_keys].
    intros e (e' & -> & He')%elem_of_map. now apply Hkeys. }
  assert (Hdn : NoDup (classes d)).
  { apply (dict_update_NoDup pykey_eqb key_class pykey_eqb_spec).
    now apply lift_classes_NoDup. }
  pose proof (names_NoDup d Hsk Hdn) as Hnn.
  assert (Hw : written d = names d)
    by now apply (dict_of_pairs_id String.eqb (fun s => s) str_eqb_spec).
  destruct (dict_update_keys_app pykey_eqb (map snd es) (lift old))
    as (extra & Hk & Hextra).
  exists (names d), (map key_str extra).
  split; [|split; [|split]].
  - unfold mapping_at. rewrite lookup_insert_eq. fold d. now rewrite Hw.
  - rewrite names_keys. unfold d. rewrite Hk, map_app.
    now rewrite names_keys_lift.
  - exact Hnn.
  - intros k (k' & -> & Hk')%elem_of_map.
    apply Hextra, elem_of_map in Hk' as (p & -> & (e & -> & He)%elem_of_map).
    destruct (Hkeys e He) as [s Hs].
    destruct (entries_of_elem _ _ _ Hes He) as [Hh _].
    rewrite Hs in *. apply py_hash_str in Hh. simpl.
    apply elem_of_map. exists e. now split.
Qed.

Lemma merge_appends_keys_witness :
  exists new added,
    mapping_at (query_file "civil war")
      (process_results "civil war" sample_batch sample_fs).2 = Some new /\
    map fst new = map fst sample_mapping ++ added.
Proof.
  edestruct (merge_appends_keys "civil war" sample_batch sample_fs
               sample_mapping) as (new & added & Hnew & Hk & _).
  - reflexivity.
  - refine (bool_decide_unpack _ _). vm_compute. exact I.
  - reflexivity.
  - apply process_results_run. vm_compute. reflexivity.
  - now exists new, added.
Defined.

(** * The operations on a file system that can fail *)

Section DiskFacts.
Implicit Types (st : Disk.state) (file : option Disk.node).

Lemma disk_load_plain file :
  Disk.plain file ->
  Disk.load_or_empty file = load_or_empty (Disk.content_of file).
Proof. destruct file as [[[t|v]|e|e]|]; simpl; tauto. Qed.

Lemma disk_unreadable_plain file : Disk.unreadable file -> Disk.plain file.
Proof. now intros [->|[t ->]]. Qed.

Lemma disk_unreadable_content file :
  Disk.unreadable file -> unreadable (Disk.content_of file).
Proof. intros [->|[t ->]]; [now left | right; now exists t]. Qed.

(** Where the directory can be made, the bucket file can be written and
    is absent or holds text, [Disk.process_results] returns what the loop
    on that text returns, and writes the file when the loop has gone
    through. *)
Lemma disk_process_results_plain query results st :
  Disk.makedirs_error st !! Disk.query_dir query = None ->
  Disk.write_error st !! query_file query = None ->
  Disk.plain (Disk.files st !! query_file query) ->
  Disk.process_results query results st =
    match run_loop (Disk.content_of (Disk.files st !! query_file query))
                   results with
    | Ok (ids, obj) =>
        (Ok (ids, obj),
         Disk.State
           (<[query_file query := Disk.Text (Valid (json_dump obj))]>
              (Disk.files st))
           ({[ Disk.query_dir query ]} ∪ Disk.dirs st)
           (Disk.makedirs_error st) (Disk.write_error st))
    | Raise e =>
        (Raise e,
         Disk.State (Disk.files st)
           ({[ Disk.query_dir query ]} ∪ Disk.dirs st)
           (Disk.makedirs_error st) (Disk.write_error st))
    end.
Proof.
  intros Hm Hw Hp. unfold Disk.process_results, Disk.makedirs. rewrite Hm.
  cbn [Disk.files Disk.dirs Disk.makedirs_error Disk.write_error].
  change (Str.path_join (Disk.query_dir query) "items_info.json")
    with (query_file query).
  rewrite (disk_load_plain _ Hp). fold (run_loop
    (Disk.content_of (Disk.files st !! query_file query)) results).
  destruct (run_loop _ results) as [[ids obj]|e]; [|reflexivity].
  unfold Disk.write.
  cbn [Disk.files Disk.dirs Disk.makedirs_error Disk.write_error].
  now rewrite Hw.
Qed.

(** It then returns what [process_results] returns on a file system that
    holds that text in the bucket file. *)
Lemma disk_process_results_agrees query results st fs :
  Disk.makedirs_error st !! Disk.query_dir query = None ->
  Disk.write_error st !! query_file query = None ->
  Disk.plain (Disk.files st !! query_file query) ->
  fs !! query_file query = Disk.content_of (Disk.files st !! query_file query) ->
  (Disk.process_results query results st).1 = (process_results query results fs).1 /\
  Disk.content_of
    (Disk.files (Disk.process_results query results st).2 !! query_file query)
  = (process_results query results fs).2 !! query_file query.
Proof.
  intros Hm Hw Hp Hfs.
  rewrite (disk_process_results_plain _ _ _ Hm Hw Hp), process_results_unfold,
    Hfs.
  destruct (run_loop _ results) as [[ids obj]|e]; simpl.
  - now rewrite !lookup_insert_eq.
  - now rewrite Hfs.
Qed.

Lemma disk_get_item_details_plain item_id response st :
  Disk.makedirs_error st !! Disk.item_dir (item_key item_id) = None ->
  Disk.write_error st !! item_file (item_key item_id) = None ->
  Disk.plain (Disk.files st !! item_file (item_key item_id)) ->
  Disk.get_item_details item_id response st =
    match Py.subscript response "item" with
    | Raise e => (Raise e, st)
    | Ok item =>
        match normalize true item with
        | Ok rec =>
            (Ok (item_key item_id, rec),
             Disk.State
               (<[item_file (item_key item_id) := Disk.Text (Valid rec)]>
                  (Disk.files st))
               ({[ Disk.item_dir (item_key item_id) ]} ∪ Disk.dirs st)
               (Disk.makedirs_error st) (Disk.write_error st))
        | Raise e =>
            (Raise e,
             Disk.State (Disk.files st)
               ({[ Disk.item_dir (item_key item_id) ]} ∪ Disk.dirs st)
               (Disk.makedirs_error st) (Disk.write_error st))
        end
    end.
Proof.
  intros Hm Hw Hp. unfold Disk.get_item_details, Disk.makedirs.
  destruct (Py.subscript response "item") as [item|e]; [|reflexivity].
  rewrite Hm. cbn [Disk.files Disk.dirs Disk.makedirs_error Disk.write_error].
  change (Str.path_join (Disk.item_dir (item_key item_id)) "item_info.json")
    with (item_file (item_key item_id)).
  rewrite (disk_load_plain _ Hp).
  destruct (load_or_empty_ok
              (Disk.content_of (Disk.files st !! item_file (item_key item_id))))
    as [obj ->].
  simpl mbind. cbn [mbind result_bind].
  destruct (normalize true item) as [rec|e] eqn:Hn; [|reflexivity].
  unfold Disk.write.
  cbn [Disk.files Disk.dirs Disk.makedirs_error Disk.write_error].
  assert (Hdump : json_dump (of_json rec) = rec).
  { destruct item; simpl in Hn; try discriminate.
    destruct (normalize_ok_inv true kvs rec Hn) as (cs & th & _ & _ & ->).
    apply dump_item_info. }
  now rewrite Hw, Hdump.
Qed.

Lemma forall2_elem_l {A B} (P : A -> B -> Prop) l k x :
  Forall2 P l k -> x ∈ l -> exists y, y ∈ k /\ P x y.
Proof.
  induction 1 as [|a b l k Hab _ IH]; intros Hx.
  - now apply elem_of_nil in Hx.
  - apply elem_of_cons in Hx as [->|Hx].
    + exists b. split; [apply elem_of_cons; now left | exact Hab].
    + destruct (IH Hx) as (y & Hy & HP).
      exists y. split; [apply elem_of_cons; now right | exact HP].
Qed.

(** The record read back under a string identifier, when no other
    identifier of the batch is written under that name: that of the last
    record of the batch with the identifier. *)
Lemma written_last_record old pre item post es A :
  NoDup (map fst old) ->
  entries_of (pre ++ item :: post) = Ok es ->
  Py.subscript item "id" = Ok (JStr A) ->
  (forall item', item' ∈ post -> Py.subscript item' "id" <> Ok (JStr A)) ->
  (forall item' id pk,
     item' ∈ pre ++ item :: post ->
     Py.subscript item' "id" = Ok id -> py_hash id = Ok pk ->
     key_str pk = A -> id = JStr A) ->
  exists rec,
    normalize false item = Ok rec /\
    Py.dict_get A (written (dict_update pykey_eqb (map snd es) (lift old)))
      = Some rec.
Proof.
  intros Hnd Hes Hsub Hpost Hnc.
  destruct (entries_of_app _ _ _ _ Hes) as (es1 & e & es2 & -> & Hpre & He & Hes2).
  destruct (entry_of_inv _ _ He) as (Hid & Hh & Hn).
  assert (Hk : fst (snd e) = KStr A).
  { rewrite Hsub in Hid. injection Hid as Hid. rewrite <- Hid in Hh.
    simpl in Hh. congruence. }
  exists (snd (snd e)). split; [exact Hn|].
  apply written_last; [exact Hnd | exact Hk | |].
  - intros e' He' Hname.
    destruct (entries_of_elem _ _ _ Hes He') as (Hh' & item' & Hin' & Hid' & _).
    assert (Hid2 : fst e' = JStr A)
      by exact (Hnc item' _ _ Hin' Hid' Hh' Hname).
    rewrite Hid2 in Hh'. simpl in Hh'. congruence.
  - intros e' He' Hk'.
    destruct (entries_of_elem _ _ _ Hes2 He') as (Hh' & item' & Hin' & Hid' & _).
    rewrite Hk' in Hh'. apply py_hash_str in Hh'.
    apply (Hpost item' Hin'). now rewrite Hid', Hh'.
Qed.
End DiskFacts.

(** C6, as stated, fails: a bucket file whose text is nested deeper than
    [json.load] can follow does not parse, and the [RecursionError] it
    raises is not among the two exceptions the [try] block catches: the
    call raises it, although the batch itself can be merged, and the file
    is left as it was.  With the bucket file absent the call fails as well
    when [os.makedirs] does, before the file is looked for. *)
Lemma unreadable_bucket_not_recovered :
  is_ok (entries_of [sample_record]) = true /\
  (Disk.process_results "civil war" sample_batch deep_disk).1
    = Raise RecursionError /\
  Disk.files (Disk.process_results "civil war" sample_batch deep_disk).2
    !! query_file "civil war"
    = Some (Disk.Unloadable RecursionError) /\
  Disk.files blocked_disk !! query_file "civil war" = None /\
  (Disk.process_results "civil war" sample_batch blocked_disk).1
    = Raise FileExistsError.
Proof. repeat split; vm_compute; reflexivity. Qed.

(** C6, amended: when [os.makedirs] can make the bucket directory, the
    bucket file can be written, and it is absent or holds text that
    [json.load] rejects with [JSONDecodeError], the read failure is
    swallowed.  [process_results]
    never raises [FileNotFoundError] or [JSONDecodeError] and returns what
    it returns on a bucket that holds the empty mapping, leaving the same
    files when it returns.  When every record of the batch can be entered
    it returns the identifiers of the records, in order, and the mapping
    it writes holds normalised records of the batch and nothing else, one
    under each string identifier of the batch: that of the last record
    with the identifier, when no other identifier is written under that
    name.  [get_item_details], on the same conditions for the item's
    directory and file, returns the normalised item and writes it. *)
Theorem read_failure_recovery (st : Disk.state) :
  (forall query results,
     Disk.makedirs_error st !! Disk.query_dir query = None ->
     Disk.write_error st !! query_file query = None ->
     Disk.unreadable (Disk.files st !! query_file query) ->
     (forall e, (Disk.process_results query results st).1 = Raise e ->
                is_read_error e = false) /\
     (let st0 :=
        Disk.State
          (<[query_file query := Disk.Text (Valid (JObj []))]> (Disk.files st))
          (Disk.dirs st) (Disk.makedirs_error st) (Disk.write_error st) in
      (Disk.process_results query results st).1 =
      (Disk.process_results query results st0).1 /\
      (is_ok (Disk.process_results query results st).1 = true ->
       Disk.files (Disk.process_results query results st).2 =
       Disk.files (Disk.process_results query results st0).2)) /\
     (forall items,
        Py.iter results = Ok items ->
        is_ok (entries_of items) = true ->
        exists ids obj new,
          (Disk.process_results query results st).1 = Ok (ids, obj) /\
          Forall2 (fun item id => Py.subscript item "id" = Ok id) items ids /\
          Disk.files (Disk.process_results query results st).2
            !! query_file query = Some (Disk.Text (Valid (JObj new))) /\
          (forall k rec,
             Py.dict_get k new = Some rec ->
             exists item, item ∈ items /\ normalize false item = Ok rec) /\
          (forall item s,
             item ∈ items -> Py.subscript item "id" = Ok (JStr s) ->
             is_Some (Py.dict_get s new)) /\
          (forall A pre item post,
             items = pre ++ item :: post ->
             Py.subscript item "id" = Ok (JStr A) ->
             (forall item', item' ∈ post ->
                            Py.subscript item' "id" <> Ok (JStr A)) ->
             (forall item' id pk,
                item' ∈ items ->
                Py.subscript item' "id" = Ok id -> py_hash id = Ok pk ->
                key_str pk = A -> id = JStr A) ->
             exists rec,
               normalize false item = Ok rec /\
               Py.dict_get A new = Some rec))) /\
  (forall item_id response,
     Disk.makedirs_error st !! Disk.item_dir (item_key item_id) = None ->
     Disk.write_error st !! item_file (item_key item_id) = None ->
     Disk.unreadable (Disk.files st !! item_file (item_key item_id)) ->
     (forall e, (Disk.get_item_details item_id response st).1 = Raise e ->
                is_read_error e = false) /\
     (forall item rec,
        Py.subscript response "item" = Ok item ->
        normalize true item = Ok rec ->
        (Disk.get_item_details item_id response st).1
          = Ok (item_key item_id, rec) /\
        Disk.files (Disk.get_item_details item_id response st).2
          !! item_file (item_key item_id) = Some (Disk.Text (Valid rec)))).
Proof.
  split.
  - intros query results Hm Hw Hbad.
    pose proof (disk_unreadable_plain _ Hbad) as Hp.
    pose proof (load_unreadable _ (disk_unreadable_content _ Hbad)) as Hload.
    rewrite (disk_process_results_plain _ _ _ Hm Hw Hp).
    split; [|split].
    + intros e.
      destruct (run_loop _ results) as [[ids obj]|e'] eqn:Hrun; simpl;
        [discriminate|].
      intros [= <-]. now apply run_loop_exn in Hrun.
    + cbv zeta.
      rewrite (disk_process_results_plain query results (Disk.State _ _ _ _));
        cbn [Disk.files Disk.dirs Disk.makedirs_error Disk.write_error];
        [|exact Hm | exact Hw | now rewrite lookup_insert_eq].
      rewrite lookup_insert_eq. unfold run_loop. rewrite Hload. simpl.
      destruct (_ ≫= _) as [[ids obj]|e]; simpl; [|now split].
      split; [reflexivity|]. intros _. now rewrite insert_insert_eq.
    + intros items Hit Hes.
      destruct (entries_of items) as [es|e] eqn:Hes'; [|discriminate].
      unfold run_loop. rewrite Hload, Hit. simpl.
      destruct (for_each items ([], PDict [])) as [[ids obj]|e] eqn:Hfor.
      2:{ rewrite for_each_dict, Hes' in Hfor. discriminate. }
      destruct (for_each_ids _ _ _ _ _ Hfor) as (ids1 & -> & Hids).
      rewrite for_each_dict, Hes' in Hfor. simpl in Hfor.
      injection Hfor as _ <-.
      eexists _, _, _. simpl.
      split; [reflexivity|]. split; [exact Hids|].
      split; [now rewrite lookup_insert_eq|].
      split; [|split].
      * intros k rec (k' & _ & Hin)%written_elem.
        apply (dict_update_elem pykey_eqb key_class pykey_eqb_spec) in Hin
          as [(k1 & Hk1 & _)|[Hnil _]]; [| |constructor].
        -- apply elem_of_map in Hk1 as (e & He & Hin).
           destruct (entries_of_elem _ _ _ Hes' Hin) as (_ & item & ? & _ & Hn).
           exists item. split; [assumption|]. rewrite Hn, <- He. reflexivity.
        -- now apply elem_of_nil in Hnil.
      * intros item s Hin Hid.
        destruct (forall2_elem_l _ _ _ _ (entries_of_spec _ _ Hes') Hin)
          as (e & He & Hid' & Hh & _).
        apply written_str_id. exists e. split; [exact He|].
        rewrite Hid in Hid'. injection Hid' as Hid'. rewrite <- Hid' in Hh.
        simpl in Hh. congruence.
      * intros A pre item post -> Hid Hpost Hnc.
        exact (written_last_record [] pre item post es A
                 (NoDup_nil_2) Hes' Hid Hpost Hnc).
  - intros item_id response Hm Hw Hbad.
    pose proof (disk_unreadable_plain _ Hbad) as Hp.
    rewrite (disk_get_item_details_plain _ _ _ Hm Hw Hp). split.
    + intros e.
      destruct (Py.subscript response "item") as [item|e'] eqn:Hsub; simpl.
      * destruct (normalize true item) as [rec|e'] eqn:Hn; simpl;
          [discriminate|].
        intros [= <-]. now apply normalize_exn in Hn.
      * intros [= <-]. now apply subscript_exn in Hsub.
    + intros item rec -> ->. simpl. now rewrite lookup_insert_eq.
Qed.

Lemma read_failure_recovery_witness :
  exists ids obj new,
    (Disk.process_results "civil war" sample_batch corrupt_disk).1
      = Ok (ids, obj) /\
    Forall2 (fun item id => Py.subscript item "id" = Ok id) [sample_record] ids /\
    Disk.files (Disk.process_results "civil war" sample_batch corrupt_disk).2
      !! query_file "civil war" = Some (Disk.Text (Valid (JObj new))) /\
    is_Some (Py.dict_get "http://www.loc.gov/item/1/" new).
Proof.
  assert (Hbad : Disk.unreadable
                   (Disk.files corrupt_disk !! query_file "civil war")).
  { right. exists "{oops". reflexivity. }
  destruct (proj1 (read_failure_recovery corrupt_disk)
              "civil war" sample_batch eq_refl eq_refl Hbad)
    as (_ & _ & Hok).
  destruct (Hok [sample_record] eq_refl eq_refl)
    as (ids & obj & new & Hres & Hids & Hfile & _ & Hin & _).
  exists ids, obj, new. repeat split; try assumption.
  apply (Hin sample_record); [|reflexivity].
  apply list_elem_of_singleton. reflexivity.
Defined.

(** C10, as stated, fails: the content of the item file decides whether
    the call returns.  On a file that holds [{}] it returns the record and
    writes it; on a file of bytes that are no text, or of text nested
    deeper than [json.load] can follow, the load raises an exception the
    [try] block does not catch, nothing is returned and the file is left
    as it was. *)
Lemma item_cache_decides_outcome :
  is_ok (Disk.get_item_details "1" sample_response fresh_item_disk).1 = true /\
  (Disk.get_item_details "1" sample_response binary_item_disk).1
    = Raise UnicodeDecodeError /\
  (Disk.get_item_details "1" sample_response deep_item_disk).1
    = Raise RecursionError /\
  Disk.files (Disk.get_item_details "1" sample_response binary_item_disk).2
    !! item_file "1" = Some (Disk.Unloadable UnicodeDecodeError).
Proof. repeat split; vm_compute; reflexivity. Qed.

(** C10, amended: take two states of the disk in which the item's
    directory can be made and the item file can be written and is absent
    or holds text, whether [json.load] parses it or rejects it with
    [JSONDecodeError].  [get_item_details] returns the same value, or
    raises the same exception, in both.  When it returns, the value is the
    item's key with the normalisation of the fetched item, and the item
    file holds that one flat record in both; when it raises, the item file
    is in both as it was. *)
Theorem item_cache_is_discarded (item_id : string) (response : json)
    (st1 st2 : Disk.state) :
  Disk.makedirs_error st1 !! Disk.item_dir (item_key item_id) = None ->
  Disk.makedirs_error st2 !! Disk.item_dir (item_key item_id) = None ->
  Disk.write_error st1 !! item_file (item_key item_id) = None ->
  Disk.write_error st2 !! item_file (item_key item_id) = None ->
  Disk.plain (Disk.files st1 !! item_file (item_key item_id)) ->
  Disk.plain (Disk.files st2 !! item_file (item_key item_id)) ->
  (Disk.get_item_details item_id response st1).1 =
  (Disk.get_item_details item_id response st2).1 /\
  (forall key rec,
     (Disk.get_item_details item_id response st1).1 = Ok (key, rec) ->
     key = item_key item_id /\
     (exists item, Py.subscript response "item" = Ok item /\
                   normalize true item = Ok rec) /\
     Disk.files (Disk.get_item_details item_id response st1).2
       !! item_file (item_key item_id) = Some (Disk.Text (Valid rec)) /\
     Disk.files (Disk.get_item_details item_id response st2).2
       !! item_file (item_key item_id) = Some (Disk.Text (Valid rec))) /\
  (forall e,
     (Disk.get_item_details item_id response st1).1 = Raise e ->
     Disk.files (Disk.get_item_details item_id response st1).2
       !! item_file (item_key item_id)
     = Disk.files st1 !! item_file (item_key item_id) /\
     Disk.files (Disk.get_item_details item_id response st2).2
       !! item_file (item_key item_id)
     = Disk.files st2 !! item_file (item_key item_id)).
Proof.
  intros Hm1 Hm2 Hw1 Hw2 Hp1 Hp2.
  rewrite (disk_get_item_details_plain _ _ _ Hm1 Hw1 Hp1),
    (disk_get_item_details_plain _ _ _ Hm2 Hw2 Hp2).
  destruct (Py.subscript response "item") as [item|e] eqn:Hsub; simpl.
  - destruct (normalize true item) as [rec|e] eqn:Hn; simpl.
    + split; [reflexivity|]. split; [|discriminate].
      intros key rec' [= <- <-]. split; [reflexivity|].
      split; [now exists item|]. now rewrite !lookup_insert_eq.
    + split; [reflexivity|]. split; [discriminate|]. now intros e' _.
  - split; [reflexivity|]. split; [discriminate|]. now intros e' _.
Qed.

Lemma item_cache_is_discarded_witness :
  (Disk.get_item_details "1" sample_response fresh_item_disk).1 =
  (Disk.get_item_details "1" sample_response empty_disk).1.
Proof.
  apply (item_cache_is_discarded "1" sample_response
           fresh_item_disk empty_disk);
    reflexivity || exact I.
Defined.

(** X8: an empty batch, where the bucket's directory can be made and the
    bucket file can be written.  A bucket file that parses is written back
    as it was read and the object loaded from it is returned; a bucket
    file that is absent, or holds text [json.load] rejects with
    [JSONDecodeError], is written with the empty mapping [{}], which is
    returned. *)
Theorem process_results_no_records (query : string) (st : Disk.state) :
  Disk.makedirs_error st !! Disk.query_dir query = None ->
  Disk.write_error st !! query_file query = None ->
  (forall v,
     Disk.files st !! query_file query = Some (Disk.Text (Valid v)) ->
     unique_keys (Some (Valid v)) ->
     (Disk.process_results query (JList []) st).1 = Ok ([], of_json v) /\
     Disk.files (Disk.process_results query (JList []) st).2
       !! query_file query = Some (Disk.Text (Valid v))) /\
  (Disk.unreadable (Disk.files st !! query_file query) ->
   (Disk.process_results query (JList []) st).1 = Ok ([], PDict []) /\
   Disk.files (Disk.process_results query (JList []) st).2
     !! query_file query = Some (Disk.Text (Valid (JObj [])))).
Proof.
  intros Hm Hw. split.
  - intros v Hv Hu.
    rewrite (disk_process_results_plain _ _ _ Hm Hw); rewrite Hv; [|exact I].
    simpl. rewrite lookup_insert_eq, (dump_of_json _ Hu). now split.
  - intros Hbad.
    rewrite (disk_process_results_plain _ _ _ Hm Hw
               (disk_unreadable_plain _ Hbad)).
    unfold run_loop.
    rewrite (load_unreadable _ (disk_unreadable_content _ Hbad)). simpl.
    rewrite lookup_insert_eq. now split.
Qed.

Lemma process_results_no_records_witness :
  (Disk.process_results "civil war" (JList []) sample_disk).1
    = Ok ([], of_json (JObj sample_mapping)) /\
  Disk.files (Disk.process_results "civil war" (JList []) sample_disk).2
    !! query_file "civil war" = Some (Disk.Text (Valid (JObj sample_mapping))).
Proof.
  apply (proj1 (process_results_no_records "civil war" sample_disk
                  eq_refl eq_refl));
    [reflexivity|].
  refine (bool_decide_unpack _ _). vm_compute. exact I.
Defined.
